(** * nerfacc: packed device views ([data_spec_packed.cuh])

    A shallow embedding of the packed, non-owning device views that
    nerfacc builds over torch tensors:

    - [PackedRaySegmentsSpec]  (flattened / batched ray segments),
    - [PackedMultiScaleGridSpec] (multiscale occupancy grid),
    - [PackedRaysSpec], [SingleRaySpec] (flattened rays, one ray),
    - [AABBSpec] (axis-aligned box).

    Two revisions of the header are embedded: the current one in
    [Module device] and the earlier one in [Module device0].

    Conventions.
    - [int32_t]/[int64_t] values are [Z]; every narrowing conversion and
      every 32/64-bit arithmetic operation writes its two's-complement
      wrap-around out ([wrap]).
    - [float] is IEEE-754 binary32, computed with the Standard Library's
      executable [SpecFloat] operations at precision 24, emax 128.
    - A raw pointer is either [nullptr] or points at the first element of
      an externally owned contiguous buffer ([span]); indexing outside
      the buffer has no defined result ([None]).
    - A C++ constructor that can throw returns a [result]. *)

From Stdlib Require Import ZArith List Bool Lia.
From Stdlib Require Import Floats.SpecFloat.
Import ListNotations.
Open Scope Z_scope.

Set Implicit Arguments.

(* ------------------------------------------------------------------ *)
(** ** Fixed-width integers *)

(** Two's-complement reduction of [z] to a signed [w]-bit integer. *)
Definition wrap (w z : Z) : Z := (z + 2 ^ (w - 1)) mod 2 ^ w - 2 ^ (w - 1).

Definition INT32_MAX : Z := 2147483647.
Definition INT64_MAX : Z := 9223372036854775807.

(** Conversion to [int32_t] / [int64_t]. *)
Definition to_int32 (z : Z) : Z := wrap 32 z.
Definition to_int64 (z : Z) : Z := wrap 64 z.

(** Arithmetic on [int32_t] and [int64_t] operands. *)
Module i32.
Definition mul (a b : Z) : Z := to_int32 (a * b).
Definition add (a b : Z) : Z := to_int32 (a + b).
End i32.

Module i64.
Definition mul (a b : Z) : Z := to_int64 (a * b).
Definition add (a b : Z) : Z := to_int64 (a + b).
End i64.

Definition fits_int32 (z : Z) : Prop := - INT32_MAX - 1 <= z <= INT32_MAX.
Definition fits_int64 (z : Z) : Prop := - INT64_MAX - 1 <= z <= INT64_MAX.

(* ------------------------------------------------------------------ *)
(** ** binary32 floats *)

Module f32.
Definition prec : Z := 24.
Definition emax : Z := 128.

Definition float : Type := spec_float.

Definition add : float -> float -> float := SFadd prec emax.
Definition sub : float -> float -> float := SFsub prec emax.
Definition mul : float -> float -> float := SFmul prec emax.
Definition div : float -> float -> float := SFdiv prec emax.

(** Conversion of an integer, rounding to nearest even. *)
Definition of_Z (z : Z) : float := binary_normalize prec emax z 0 false.
(** [m * 2^e], rounded. *)
Definition of_scaled (m e : Z) : float := binary_normalize prec emax m e false.

Definition zero : float := S754_zero false.
Definition neg_zero : float := S754_zero true.
Definition one : float := of_Z 1.
Definition inf : float := S754_infinity false.
Definition neg_inf : float := S754_infinity true.

Definition ltb : float -> float -> bool := SFltb.
Definition leb : float -> float -> bool := SFleb.
Definition is_nan (x : float) : bool :=
  match x with S754_nan => true | _ => false end.
End f32.

Record float3 : Type := make_float3
  { x : f32.float; y : f32.float; z : f32.float }.

Record int3 : Type := make_int3 { ix : Z; iy : Z; iz : Z }.

(* ------------------------------------------------------------------ *)
(** ** Externally owned buffers and raw pointers *)

(** A contiguous buffer of [span_len] elements; [span_at k] is element
    [k] for [0 <= k < span_len].  Buffers are owned by the allocator, the
    views only alias them. *)
Record span (A : Type) : Type := mk_span
  { span_len : Z; span_at : Z -> A }.

(** [T*]: null, or the address of the first element of a buffer. *)
Definition ptr (A : Type) : Type := option (span A).
Definition nullptr {A : Type} : ptr A := None.

(** [p[k]].  Reading through a null pointer or outside the buffer is
    undefined behaviour: no result. *)
Definition index {A : Type} (p : ptr A) (k : Z) : option A :=
  match p with
  | None => None
  | Some b => if (0 <=? k) && (k <? span_len b) then Some (span_at b k) else None
  end.

(* ------------------------------------------------------------------ *)
(** ** Results of throwing code *)

Inductive error : Type :=
| UndefinedTensor   (* an accessor was called on an undefined tensor *)
| DimOutOfRange.    (* [size(d)] with [d] outside [-dim, dim-1] *)

Inductive result (A : Type) : Type :=
| Ok (a : A)
| Throw (e : error).
Arguments Throw {A} e.

Definition bind {A B : Type} (r : result A) (k : A -> result B) : result B :=
  match r with
  | Ok a => k a
  | Throw e => Throw e
  end.

Notation "x <- r ;; k" := (bind r (fun x => k))
  (at level 61, r at next level, right associativity).

Definition succeeds {A : Type} (r : result A) : Prop := exists a, r = Ok a.

(* ------------------------------------------------------------------ *)
(** ** The tensor interface used by the header

    [torch::Tensor] is an external library type.  Only the accessors the
    header calls are modelled: [defined], [dim], [numel], [size],
    [data_ptr].  An undefined tensor is [None]; a defined one has a shape
    and contiguous storage. *)

Module torch.
Record TensorImpl (A : Type) : Type := mk_tensor
  { sizes : list Z; storage : span A }.

Definition Tensor (A : Type) : Type := option (TensorImpl A).

Definition prod_sizes (l : list Z) : Z := fold_right Z.mul 1 l.

(** Shape invariant kept by the allocator: non-negative [int64]
    extents, an element count that fits [int64], storage of exactly
    that many elements. *)
Definition wf_impl {A : Type} (t : TensorImpl A) : Prop :=
  Forall (fun n => 0 <= n <= INT64_MAX) (sizes t) /\
  prod_sizes (sizes t) <= INT64_MAX /\
  span_len (storage t) = prod_sizes (sizes t).

Definition defined {A : Type} (t : Tensor A) : bool :=
  match t with None => false | Some _ => true end.

Definition dim {A : Type} (t : Tensor A) : result Z :=
  match t with
  | None => Throw UndefinedTensor
  | Some i => Ok (Z.of_nat (length (sizes i)))
  end.

Definition numel {A : Type} (t : Tensor A) : result Z :=
  match t with
  | None => Throw UndefinedTensor
  | Some i => Ok (prod_sizes (sizes i))
  end.

(** [size(d)]: negative [d] counts from the last dimension; a
    dimension outside [-dim, dim-1] throws. *)
Definition size {A : Type} (t : Tensor A) (d : Z) : result Z :=
  match t with
  | None => Throw UndefinedTensor
  | Some i =>
      let n := Z.of_nat (length (sizes i)) in
      let d' := if d <? 0 then d + n else d in
      if (0 <=? d') && (d' <? n)
      then Ok (nth (Z.to_nat d') (sizes i) 0)
      else Throw DimOutOfRange
  end.

Definition data_ptr {A : Type} (t : Tensor A) : result (ptr A) :=
  match t with
  | None => Throw UndefinedTensor
  | Some i => Ok (Some (storage i))
  end.
End torch.

(* ------------------------------------------------------------------ *)
(** ** Host-side specs ([data_spec.hpp]) *)

(** Modelled from the spec: [data_spec.hpp] declares the host structs
    [RaySegmentsSpec], [MultiScaleGridSpec] and [RaysSpec]; that header is
    not included with the packed one.  Each struct is a plain record of
    the tensors the packed constructors read, typed by the interface
    table of the specification (edges float32, flags bool, chunk and ray
    ids int64, grid data float32 and occupancy bool, base_aabb float32,
    origins and dirs float32). *)
Module spec.
(** Modelled from the spec: host struct [RaySegmentsSpec] of
    [data_spec.hpp] (not included); the six tensors the packed
    constructor reads. *)
Record RaySegmentsSpec : Type := mk_RaySegmentsSpec
  { edges : torch.Tensor f32.float;
    is_left : torch.Tensor bool;
    is_right : torch.Tensor bool;
    chunk_starts : torch.Tensor Z;
    chunk_cnts : torch.Tensor Z;
    ray_ids : torch.Tensor Z }.

(** Modelled from the spec: host struct [MultiScaleGridSpec] of
    [data_spec.hpp] (not included). *)
Record MultiScaleGridSpec : Type := mk_MultiScaleGridSpec
  { data : torch.Tensor f32.float;
    occupied : torch.Tensor bool;
    base_aabb : torch.Tensor f32.float }.

(** Modelled from the spec: host struct [RaysSpec] of [data_spec.hpp]
    (not included). *)
Record RaysSpec : Type := mk_RaysSpec
  { origins : torch.Tensor f32.float;
    dirs : torch.Tensor f32.float }.
End spec.

(* ------------------------------------------------------------------ *)
(** ** The packed views, current revision ([data_spec_packed.cuh]) *)

Module device.

Record PackedRaySegmentsSpec : Type := mk_PackedRaySegmentsSpec
  { edges : ptr f32.float;
    is_batched : bool;
    chunk_starts : ptr Z;
    chunk_cnts : ptr Z;
    ray_ids : ptr Z;
    is_left : ptr bool;
    is_right : ptr bool;
    n_edges : Z;            (* int64_t *)
    n_rays : Z;             (* int32_t *)
    n_edges_per_ray : Z }.  (* int32_t *)

(** The constructor.  Members are initialised in declaration order;
    the three counts are computed in [int64_t] (the type of [numel()]
    and [size()]) and the last two are then narrowed to [int32_t]. *)
Definition new_PackedRaySegmentsSpec (s : spec.RaySegmentsSpec)
  : result PackedRaySegmentsSpec :=
  edges_ <- (if torch.defined (spec.edges s)
             then torch.data_ptr (spec.edges s) else Ok nullptr) ;;
  is_batched_ <- (if torch.defined (spec.edges s)
                  then d <- torch.dim (spec.edges s) ;; Ok (1 <? d)
                  else Ok false) ;;
  chunk_starts_ <- (if torch.defined (spec.chunk_starts s)
                    then torch.data_ptr (spec.chunk_starts s) else Ok nullptr) ;;
  chunk_cnts_ <- (if torch.defined (spec.chunk_cnts s)
                  then torch.data_ptr (spec.chunk_cnts s) else Ok nullptr) ;;
  ray_ids_ <- (if torch.defined (spec.ray_ids s)
               then torch.data_ptr (spec.ray_ids s) else Ok nullptr) ;;
  is_left_ <- (if torch.defined (spec.is_left s)
               then torch.data_ptr (spec.is_left s) else Ok nullptr) ;;
  is_right_ <- (if torch.defined (spec.is_right s)
                then torch.data_ptr (spec.is_right s) else Ok nullptr) ;;
  n_edges_ <- (if torch.defined (spec.edges s)
               then torch.numel (spec.edges s) else Ok 0) ;;
  n_rays_ <- (if torch.defined (spec.chunk_cnts s)
              then torch.size (spec.chunk_cnts s) 0 else Ok 0) ;;
  n_edges_per_ray_ <- (if torch.defined (spec.edges s)
                       then torch.size (spec.edges s) (-1) else Ok 0) ;;
  Ok {| edges := edges_;
        is_batched := is_batched_;
        chunk_starts := chunk_starts_;
        chunk_cnts := chunk_cnts_;
        ray_ids := ray_ids_;
        is_left := is_left_;
        is_right := is_right_;
        n_edges := n_edges_;
        n_rays := to_int32 n_rays_;
        n_edges_per_ray := to_int32 n_edges_per_ray_ |}.

Record PackedMultiScaleGridSpec : Type := mk_PackedMultiScaleGridSpec
  { data : ptr f32.float;
    occupied : ptr bool;
    base_aabb : ptr f32.float;
    levels : Z;             (* int32_t *)
    resolution : int3 }.

Definition new_PackedMultiScaleGridSpec (s : spec.MultiScaleGridSpec)
  : result PackedMultiScaleGridSpec :=
  data_ <- torch.data_ptr (spec.data s) ;;
  occupied_ <- torch.data_ptr (spec.occupied s) ;;
  base_aabb_ <- torch.data_ptr (spec.base_aabb s) ;;
  levels_ <- torch.size (spec.data s) 0 ;;
  rx <- torch.size (spec.data s) 1 ;;
  ry <- torch.size (spec.data s) 2 ;;
  rz <- torch.size (spec.data s) 3 ;;
  Ok {| data := data_;
        occupied := occupied_;
        base_aabb := base_aabb_;
        levels := to_int32 levels_;
        resolution := make_int3 (to_int32 rx) (to_int32 ry) (to_int32 rz) |}.

Record PackedRaysSpec : Type := mk_PackedRaysSpec
  { origins : ptr f32.float;
    dirs : ptr f32.float;
    N : Z }.                (* int32_t *)

Definition new_PackedRaysSpec (s : spec.RaysSpec) : result PackedRaysSpec :=
  origins_ <- torch.data_ptr (spec.origins s) ;;
  dirs_ <- torch.data_ptr (spec.dirs s) ;;
  N_ <- torch.size (spec.origins s) 0 ;;
  Ok {| origins := origins_; dirs := dirs_; N := to_int32 N_ |}.

Record SingleRaySpec : Type := mk_SingleRaySpec
  { origin : float3;
    dir : float3;
    inv_dir : float3;
    tmin : f32.float;
    tmax : f32.float }.

(** Device constructor.  [id] is an [int32_t] and the literals are
    [int], so [id * 3], [id * 3 + 1] and [id * 3 + 2] are 32-bit.  A
    read outside the buffer leaves the result undefined.  The source
    reads each [dirs] element twice, for [dir] and for [inv_dir]; the
    buffer does not change in between, so each element is read once
    here. *)
Definition new_SingleRaySpec (rays : PackedRaysSpec) (id : Z)
    (tmin_ tmax_ : f32.float) : option SingleRaySpec :=
  match index (origins rays) (i32.mul id 3),
        index (origins rays) (i32.add (i32.mul id 3) 1),
        index (origins rays) (i32.add (i32.mul id 3) 2),
        index (dirs rays) (i32.mul id 3),
        index (dirs rays) (i32.add (i32.mul id 3) 1),
        index (dirs rays) (i32.add (i32.mul id 3) 2) with
  | Some ox, Some oy, Some oz, Some dx, Some dy, Some dz =>
      Some {| origin := make_float3 ox oy oz;
              dir := make_float3 dx dy dz;
              inv_dir := make_float3 (f32.div f32.one dx)
                                     (f32.div f32.one dy)
                                     (f32.div f32.one dz);
              tmin := tmin_;
              tmax := tmax_ |}
  | _, _, _, _, _, _ => None
  end.

Record AABBSpec : Type := mk_AABBSpec
  { min : float3; max : float3 }.

(** [AABBSpec(float *aabb)]. *)
Definition AABBSpec_of_ptr (aabb : ptr f32.float) : option AABBSpec :=
  match index aabb 0, index aabb 1, index aabb 2,
        index aabb 3, index aabb 4, index aabb 5 with
  | Some a0, Some a1, Some a2, Some a3, Some a4, Some a5 =>
      Some {| min := make_float3 a0 a1 a2; max := make_float3 a3 a4 a5 |}
  | _, _, _, _, _, _ => None
  end.

(** [AABBSpec(float3 min, float3 max)]. *)
Definition AABBSpec_of_corners (min_ max_ : float3) : AABBSpec :=
  {| min := make_float3 (x min_) (y min_) (z min_);
     max := make_float3 (x max_) (y max_) (z max_) |}.

End device.

(* ------------------------------------------------------------------ *)
(** ** The packed views, earlier revision

    Same header before batched segments were introduced: no
    [is_batched]/[n_edges_per_ray], [chunk_cnts] read unconditionally,
    64-bit [n_rays], [N] and ray [id], and the occupancy tensor is called
    [binary]. *)

(** Modelled from the spec: the earlier [data_spec.hpp] is not included
    either; its [MultiScaleGridSpec] names the occupancy tensor [binary],
    as the earlier packed constructor reads it. *)
Module spec0.
(** Modelled from the spec: host struct [MultiScaleGridSpec] of the
    earlier [data_spec.hpp] (not included). *)
Record MultiScaleGridSpec : Type := mk_MultiScaleGridSpec
  { data : torch.Tensor f32.float;
    binary : torch.Tensor bool;
    base_aabb : torch.Tensor f32.float }.
End spec0.

Module device0.

Record PackedRaySegmentsSpec : Type := mk_PackedRaySegmentsSpec
  { edges : ptr f32.float;
    is_left : ptr bool;
    is_right : ptr bool;
    chunk_starts : ptr Z;
    chunk_cnts : ptr Z;     (* should always be defined *)
    ray_ids : ptr Z;
    n_edges : Z;            (* int64_t *)
    n_rays : Z }.           (* int64_t *)

Definition new_PackedRaySegmentsSpec (s : spec.RaySegmentsSpec)
  : result PackedRaySegmentsSpec :=
  edges_ <- (if torch.defined (spec.edges s)
             then torch.data_ptr (spec.edges s) else Ok nullptr) ;;
  is_left_ <- (if torch.defined (spec.is_left s)
               then torch.data_ptr (spec.is_left s) else Ok nullptr) ;;
  is_right_ <- (if torch.defined (spec.is_right s)
                then torch.data_ptr (spec.is_right s) else Ok nullptr) ;;
  chunk_starts_ <- (if torch.defined (spec.chunk_starts s)
                    then torch.data_ptr (spec.chunk_starts s) else Ok nullptr) ;;
  chunk_cnts_ <- torch.data_ptr (spec.chunk_cnts s) ;;
  ray_ids_ <- (if torch.defined (spec.ray_ids s)
               then torch.data_ptr (spec.ray_ids s) else Ok nullptr) ;;
  n_edges_ <- (if torch.defined (spec.edges s)
               then torch.numel (spec.edges s) else Ok 0) ;;
  n_rays_ <- torch.size (spec.chunk_cnts s) 0 ;;
  Ok {| edges := edges_;
        is_left := is_left_;
        is_right := is_right_;
        chunk_starts := chunk_starts_;
        chunk_cnts := chunk_cnts_;
        ray_ids := ray_ids_;
        n_edges := n_edges_;
        n_rays := n_rays_ |}.

Record PackedMultiScaleGridSpec : Type := mk_PackedMultiScaleGridSpec
  { data : ptr f32.float;
    binary : ptr bool;
    base_aabb : ptr f32.float;
    levels : Z;             (* int *)
    resolution : int3 }.

Definition new_PackedMultiScaleGridSpec (s : spec0.MultiScaleGridSpec)
  : result PackedMultiScaleGridSpec :=
  data_ <- torch.data_ptr (spec0.data s) ;;
  binary_ <- torch.data_ptr (spec0.binary s) ;;
  base_aabb_ <- torch.data_ptr (spec0.base_aabb s) ;;
  levels_ <- torch.size (spec0.data s) 0 ;;
  rx <- torch.size (spec0.data s) 1 ;;
  ry <- torch.size (spec0.data s) 2 ;;
  rz <- torch.size (spec0.data s) 3 ;;
  Ok {| data := data_;
        binary := binary_;
        base_aabb := base_aabb_;
        levels := to_int32 levels_;
        resolution := make_int3 (to_int32 rx) (to_int32 ry) (to_int32 rz) |}.

Record PackedRaysSpec : Type := mk_PackedRaysSpec
  { origins : ptr f32.float;
    dirs : ptr f32.float;
    N : Z }.                (* int64_t *)

Definition new_PackedRaysSpec (s : spec.RaysSpec) : result PackedRaysSpec :=
  origins_ <- torch.data_ptr (spec.origins s) ;;
  dirs_ <- torch.data_ptr (spec.dirs s) ;;
  N_ <- torch.size (spec.origins s) 0 ;;
  Ok {| origins := origins_; dirs := dirs_; N := N_ |}.

Record SingleRaySpec : Type := mk_SingleRaySpec
  { origin : float3;
    dir : float3;
    inv_dir : float3;
    tmin : f32.float;
    tmax : f32.float }.

(** Device constructor; here [id] is an [int64_t], so the element
    indices are 64-bit. *)
Definition new_SingleRaySpec (rays : PackedRaysSpec) (id : Z)
    (tmin_ tmax_ : f32.float) : option SingleRaySpec :=
  match index (origins rays) (i64.mul id 3),
        index (origins rays) (i64.add (i64.mul id 3) 1),
        index (origins rays) (i64.add (i64.mul id 3) 2),
        index (dirs rays) (i64.mul id 3),
        index (dirs rays) (i64.add (i64.mul id 3) 1),
        index (dirs rays) (i64.add (i64.mul id 3) 2) with
  | Some ox, Some oy, Some oz, Some dx, Some dy, Some dz =>
      Some {| origin := make_float3 ox oy oz;
              dir := make_float3 dx dy dz;
              inv_dir := make_float3 (f32.div f32.one dx)
                                     (f32.div f32.one dy)
                                     (f32.div f32.one dz);
              tmin := tmin_;
              tmax := tmax_ |}
  | _, _, _, _, _, _ => None
  end.

End device0.

(* ------------------------------------------------------------------ *)
(** ** Ray / box intersection and occupancy lookup

    The kernels that consume the views live in other translation units.
    They are modelled here from the specification, over the embedded
    views and in binary32 arithmetic. *)

Module geometry.
Import device.

(** Modelled from the spec: the lesser of two bounds when intervals
    are intersected, taken as IEEE minNum ([fminf]): a NaN operand is
    ignored. *)
Definition fmin (a b : f32.float) : f32.float :=
  if f32.is_nan a then b else if f32.is_nan b then a
  else if f32.ltb b a then b else a.

(** Modelled from the spec: the greater of two bounds, as [fmin], IEEE
    maxNum ([fmaxf]). *)
Definition fmax (a b : f32.float) : f32.float :=
  if f32.is_nan a then b else if f32.is_nan b then a
  else if f32.ltb b a then a else b.

(** Modelled from the spec: "a possibly-empty interval
    [[t_enter, t_exit]]". *)
Record interval : Type := mk_interval
  { t_enter : f32.float; t_exit : f32.float }.

(** Modelled from the spec: the two candidate parameters of one axis,
    [(min[k]-origin[k])*inv_dir[k]] and [(max[k]-origin[k])*inv_dir[k]]. *)
Definition candidates (lo hi o inv : f32.float) : f32.float * f32.float :=
  (f32.mul (f32.sub lo o) inv, f32.mul (f32.sub hi o) inv).

(** Modelled from the spec: one slab, "order them so entry <= exit".
    Two candidates that compare are returned in increasing order.  A
    pair that does not compare has a NaN candidate ([0 * inf]: a zero
    direction component and the origin on a slab plane); no order
    exists for it, and the slab then carries no bound, so that, as the
    degenerate case of section 8 asks, the axis "does not further
    restrict the interval". *)
Definition slab (lo hi o inv : f32.float) : interval :=
  let (c1, c2) := candidates lo hi o inv in
  match SFcompare c1 c2 with
  | Some Gt => {| t_enter := c2; t_exit := c1 |}
  | Some _ => {| t_enter := c1; t_exit := c2 |}
  | None => {| t_enter := S754_nan; t_exit := S754_nan |}
  end.

(** Modelled from the spec: intersection of two parameter intervals,
    the greater entry and the lesser exit; a NaN bound is no bound. *)
Definition meet (a b : interval) : interval :=
  {| t_enter := fmax (t_enter a) (t_enter b);
     t_exit := fmin (t_exit a) (t_exit b) |}.

(** Modelled from the spec: the ray/box intersection routine is not in
    the header.  Section 4.1 of the specification: per axis the
    candidates [(min[k]-origin[k])*inv_dir[k]] and
    [(max[k]-origin[k])*inv_dir[k]], ordered so that entry <= exit, then
    intersected across the axes and with the ray's [[tmin, tmax]]. *)
Definition ray_aabb_intersect (ray : SingleRaySpec) (box : AABBSpec) : interval :=
  let sx := slab (x (min box)) (x (max box)) (x (origin ray)) (x (inv_dir ray)) in
  let sy := slab (y (min box)) (y (max box)) (y (origin ray)) (y (inv_dir ray)) in
  let sz := slab (z (min box)) (z (max box)) (z (origin ray)) (z (inv_dir ray)) in
  meet (meet (meet {| t_enter := tmin ray; t_exit := tmax ray |} sx) sy) sz.

(** Modelled from the spec: "empty when t_enter > t_exit". *)
Definition is_empty (i : interval) : bool := f32.ltb (t_exit i) (t_enter i).

(** *** Occupancy lookup *)

(** Modelled from the spec: [floor] to an integer coordinate; no value
    for an infinity or a NaN. *)
Definition floor (f : f32.float) : option Z :=
  match f with
  | S754_zero _ => Some 0
  | S754_finite s m e =>
      let v := if s then Z.neg m else Z.pos m in
      Some (if 0 <=? e then v * 2 ^ e else v / 2 ^ (- e))
  | S754_infinity _ | S754_nan => None
  end.

(** Modelled from the spec: the coordinate formula of section 4.3,
    [floor((point[k]-level_min[k]) / (level_max[k]-level_min[k]) *
    resolution[k])], evaluated left to right in binary32. *)
Definition voxel_coord (p lo hi : f32.float) (res : Z) : option Z :=
  floor (f32.mul (f32.div (f32.sub p lo) (f32.sub hi lo)) (f32.of_Z res)).

(** Modelled from the spec: what happens to a coordinate outside
    [[0, resolution)]; the specification allows either. *)
Inductive range_policy : Type := Clamp | Reject.

(** Modelled from the spec: "clamped or rejected if idx[k] is outside
    [[0, resolution[k])]". *)
Definition settle (pol : range_policy) (res i : Z) : option Z :=
  if (0 <=? i) && (i <? res) then Some i
  else match pol with
       | Clamp => Some (Z.max 0 (Z.min i (res - 1)))
       | Reject => None
       end.

(** Modelled from the spec: the coordinate of one axis after the
    clamp-or-reject step. *)
Definition axis_coord (pol : range_policy) (p lo hi : f32.float) (res : Z)
  : option Z :=
  match voxel_coord p lo hi res with
  | Some i => settle pol res i
  | None => None
  end.

(** Modelled from the spec: "the point lies outside the level's AABB",
    some coordinate below the min corner or above the max corner. *)
Definition outside (p : float3) (box : AABBSpec) : bool :=
  f32.ltb (x p) (x (min box)) || f32.ltb (x (max box)) (x p) ||
  f32.ltb (y p) (y (min box)) || f32.ltb (y (max box)) (y p) ||
  f32.ltb (z p) (z (min box)) || f32.ltb (z (max box)) (z p).

(** Modelled from the spec: "a point strictly inside" a box. *)
Definition strictly_inside (p : float3) (box : AABBSpec) : bool :=
  f32.ltb (x (min box)) (x p) && f32.ltb (x p) (x (max box)) &&
  f32.ltb (y (min box)) (y p) && f32.ltb (y p) (y (max box)) &&
  f32.ltb (z (min box)) (z p) && f32.ltb (z p) (z (max box)).

(** Modelled from the spec: the voxel a point falls in, if any. *)
Definition voxel_at (pol : range_policy) (g : PackedMultiScaleGridSpec)
    (box : AABBSpec) (p : float3) : option int3 :=
  match axis_coord pol (x p) (x (min box)) (x (max box)) (ix (resolution g)),
        axis_coord pol (y p) (y (min box)) (y (max box)) (iy (resolution g)),
        axis_coord pol (z p) (z (min box)) (z (max box)) (iz (resolution g)) with
  | Some i, Some j, Some k => Some (make_int3 i j k)
  | _, _, _ => None
  end.

(** Modelled from the spec: [occupied[l][ix,iy,iz]], the row-major
    offset of voxel [(ix, iy, iz)] of level [l] in a
    [[levels, nx, ny, nz]] array. *)
Definition flat_index (g : PackedMultiScaleGridSpec) (l : Z) (v : int3) : Z :=
  ((l * ix (resolution g) + ix v) * iy (resolution g) + iy v)
    * iz (resolution g) + iz v.

(** Modelled from the spec: the occupancy query is not in the header.
    Section 4.3: a point outside the level's box is "not occupied";
    otherwise the point is mapped to integer coordinates and
    [occupied[l][ix,iy,iz]] is read; a rejected coordinate is "not
    occupied".  [box] is the extent of level [l] ([base_aabb] scaled by
    the level's factor, [base_aabb] itself at level 0).  The result is
    [None] only if the read leaves the [occupied] buffer. *)
Definition grid_occupied_at (pol : range_policy) (g : PackedMultiScaleGridSpec)
    (box : AABBSpec) (l : Z) (p : float3) : option bool :=
  if outside p box then Some false
  else match voxel_at pol g box p with
       | None => Some false
       | Some v => index (occupied g) (flat_index g l v)
       end.

End geometry.

(* ------------------------------------------------------------------ *)
(** ** Vocabulary of the statements *)

(** Number of dimensions of a defined tensor. *)
Definition rank {A : Type} (i : torch.TensorImpl A) : Z :=
  Z.of_nat (length (torch.sizes i)).

(** The tensor is undefined, or has at least one dimension. *)
Definition has_rank {A : Type} (t : torch.Tensor A) : bool :=
  match t with
  | None => true
  | Some i => match torch.sizes i with [] => false | _ :: _ => true end
  end.

(** The pointer an optional tensor is exposed as: null when the tensor
    is absent, its data pointer when it is present. *)
Definition opt_ptr {A : Type} (t : torch.Tensor A) : ptr A :=
  match t with
  | None => nullptr
  | Some i => Some (torch.storage i)
  end.

(** A tensor of the given shape whose elements are given by [f]. *)
Definition tensor_of {A : Type} (shape : list Z) (f : Z -> A) : torch.Tensor A :=
  Some (torch.mk_tensor shape (mk_span (torch.prod_sizes shape) f)).

(** Both tensors whose extents the current segments constructor reads
    have an extent to read. *)
Definition constructible (s : spec.RaySegmentsSpec) : bool :=
  has_rank (spec.edges s) && has_rank (spec.chunk_cnts s).

(** Closed form of the view built by the current segments constructor
    (see [new_PackedRaySegmentsSpec_eq]). *)
Definition segments_view (s : spec.RaySegmentsSpec) : device.PackedRaySegmentsSpec :=
  {| device.edges := opt_ptr (spec.edges s);
     device.is_batched :=
       match spec.edges s with None => false | Some e => 1 <? rank e end;
     device.chunk_starts := opt_ptr (spec.chunk_starts s);
     device.chunk_cnts := opt_ptr (spec.chunk_cnts s);
     device.ray_ids := opt_ptr (spec.ray_ids s);
     device.is_left := opt_ptr (spec.is_left s);
     device.is_right := opt_ptr (spec.is_right s);
     device.n_edges :=
       match spec.edges s with
       | None => 0
       | Some e => torch.prod_sizes (torch.sizes e)
       end;
     device.n_rays :=
       to_int32 match spec.chunk_cnts s with
                | None => 0
                | Some c => hd 0 (torch.sizes c)
                end;
     device.n_edges_per_ray :=
       to_int32 match spec.edges s with
                | None => 0
                | Some e => last (torch.sizes e) 0
                end |}.

(** Closed form of the view built by the earlier segments constructor
    from a [chunk_cnts] tensor whose first extent is [n]. *)
Definition segments_view0 (s : spec.RaySegmentsSpec) (n : Z)
  : device0.PackedRaySegmentsSpec :=
  {| device0.edges := opt_ptr (spec.edges s);
     device0.is_left := opt_ptr (spec.is_left s);
     device0.is_right := opt_ptr (spec.is_right s);
     device0.chunk_starts := opt_ptr (spec.chunk_starts s);
     device0.chunk_cnts := opt_ptr (spec.chunk_cnts s);
     device0.ray_ids := opt_ptr (spec.ray_ids s);
     device0.n_edges :=
       match spec.edges s with
       | None => 0
       | Some e => torch.prod_sizes (torch.sizes e)
       end;
     device0.n_rays := n |}.

(** Voxel coordinates lie within the resolution on every axis. *)
Definition in_grid (res v : int3) : Prop :=
  0 <= ix v < ix res /\ 0 <= iy v < iy res /\ 0 <= iz v < iz res.

(** Concrete inputs used by the examples below. *)
Module examples.

Definition fl (l : list Z) : Z -> f32.float :=
  fun k => nth (Z.to_nat k) (map f32.of_Z l) f32.zero.

(** Four edges of one flattened collection, two rays of two edges. *)
Definition flat_edges : torch.Tensor f32.float := tensor_of [4] (fl [1; 2; 3; 4]).
Definition cnts2 : torch.Tensor Z := tensor_of [2] (fun _ => 2).
Definition starts2 : torch.Tensor Z := tensor_of [2] (fun k => 2 * k).
Definition flags4 : torch.Tensor bool := tensor_of [4] (fun k => Z.even k).

Definition flat_full : spec.RaySegmentsSpec :=
  spec.mk_RaySegmentsSpec flat_edges flags4 flags4 starts2 cnts2 None.

(** The same collection with only edges and counts. *)
Definition flat_light : spec.RaySegmentsSpec :=
  spec.mk_RaySegmentsSpec flat_edges None None None cnts2 None.

(** A flattened collection without [chunk_cnts]. *)
Definition flat_no_cnts : spec.RaySegmentsSpec :=
  spec.mk_RaySegmentsSpec flat_edges None None None None None.

(** A batched collection: 2 rays of 3 edges. *)
Definition batched_2x3 : spec.RaySegmentsSpec :=
  spec.mk_RaySegmentsSpec (tensor_of [2; 3] (fl [1; 2; 3; 4; 5; 6]))
    None None None None None.

(** A flattened collection of [2^31] edges and [2^31] rays. *)
Definition flat_huge : spec.RaySegmentsSpec :=
  spec.mk_RaySegmentsSpec (tensor_of [2147483648] (fun _ => f32.zero))
    None None None (tensor_of [2147483648] (fun _ => 1)) None.

(** A grid of 1 level and resolution 2 x 2 x 2 over the box
    [(-1,-1,-1), (1,1,1)]; the voxels of its upper half (first
    coordinate 1) are occupied. *)
Definition grid_small : spec.MultiScaleGridSpec :=
  spec.mk_MultiScaleGridSpec
    (tensor_of [1; 2; 2; 2] (fun _ => f32.one))
    (tensor_of [1; 2; 2; 2] (fun k => 4 <=? k))
    (tensor_of [6] (fl [-1; -1; -1; 1; 1; 1])).

(** A grid whose first spatial extent is [2^31]. *)
Definition grid_huge : spec.MultiScaleGridSpec :=
  spec.mk_MultiScaleGridSpec
    (tensor_of [1; 2147483648; 1; 1] (fun _ => f32.one))
    (tensor_of [1; 2147483648; 1; 1] (fun _ => false))
    (tensor_of [6] (fl [-1; -1; -1; 1; 1; 1])).

(** One ray: origin (0,0,0), direction (1,0,0). *)
Definition one_ray : spec.RaysSpec :=
  spec.mk_RaysSpec (tensor_of [1; 3] (fl [0; 0; 0]))
                   (tensor_of [1; 3] (fl [1; 0; 0])).

(** [1431655767] rays; origin component [4294967298] (the first of ray
    [1431655766]) is 1, every other component is 0. *)
Definition many_rays : spec.RaysSpec :=
  spec.mk_RaysSpec
    (tensor_of [1431655767; 3]
       (fun k => if k =? 4294967298 then f32.one else f32.zero))
    (tensor_of [1431655767; 3] (fun _ => f32.one)).


(** The box [(-1,-1,-1), (1,1,1)] and the point whose coordinates are
    all [1 - 2^-24], the largest binary32 number below 1. *)
Definition unit_box : device.AABBSpec :=
  device.AABBSpec_of_corners
    (make_float3 (f32.of_Z (-1)) (f32.of_Z (-1)) (f32.of_Z (-1)))
    (make_float3 (f32.of_Z 1) (f32.of_Z 1) (f32.of_Z 1)).

Definition below_one : f32.float := f32.of_scaled 16777215 (-24).
Definition near_corner : float3 := make_float3 below_one below_one below_one.

(** A point outside [unit_box]. *)
Definition far_point : float3 :=
  make_float3 (f32.of_Z 3) (f32.of_Z 0) (f32.of_Z 0).

(** The centre of [unit_box]. *)
Definition centre : float3 :=
  make_float3 (f32.of_Z 0) (f32.of_Z 0) (f32.of_Z 0).

End examples.

(* ------------------------------------------------------------------ *)
(** ** Further vocabulary: signs, revisions, more inputs *)

(** The sign bit of a float; a NaN has none. *)
Definition sign_bit (f : f32.float) : option bool :=
  match f with
  | S754_zero s | S754_infinity s | S754_finite s _ _ => Some s
  | S754_nan => None
  end.

(** A per-ray view of the current revision, as a record of the earlier
    one (the two structs have the same five members). *)
Definition ray0_of (r : device.SingleRaySpec) : device0.SingleRaySpec :=
  {| device0.origin := device.origin r;
     device0.dir := device.dir r;
     device0.inv_dir := device.inv_dir r;
     device0.tmin := device.tmin r;
     device0.tmax := device.tmax r |}.

(** A grid view of the current revision, as a record of the earlier one
    ([occupied] is called [binary] there). *)
Definition grid0_of (g : device.PackedMultiScaleGridSpec)
  : device0.PackedMultiScaleGridSpec :=
  {| device0.data := device.data g;
     device0.binary := device.occupied g;
     device0.base_aabb := device.base_aabb g;
     device0.levels := device.levels g;
     device0.resolution := device.resolution g |}.

(** A rays view of the earlier revision with its 64-bit [N] narrowed to
    the current revision's 32-bit [N]. *)
Definition narrow_rays (v0 : device0.PackedRaysSpec) : device.PackedRaysSpec :=
  {| device.origins := device0.origins v0;
     device.dirs := device0.dirs v0;
     device.N := to_int32 (device0.N v0) |}.

(** The box read from the first six elements of a buffer. *)
Definition box_of_span (b : span f32.float) : device.AABBSpec :=
  device.AABBSpec_of_corners
    (make_float3 (span_at b 0) (span_at b 1) (span_at b 2))
    (make_float3 (span_at b 3) (span_at b 4) (span_at b 5)).

Module inputs.

(** Two rays. *)
Definition two_rays : spec.RaysSpec :=
  spec.mk_RaysSpec (tensor_of [2; 3] (examples.fl [0; 0; 0; 1; 1; 1]))
                   (tensor_of [2; 3] (examples.fl [1; 0; 0; 0; -2; 0])).

(** Two origins but a single direction. *)
Definition short_dirs : spec.RaysSpec :=
  spec.mk_RaysSpec (tensor_of [2; 3] (examples.fl [0; 0; 0; 1; 1; 1]))
                   (tensor_of [1; 3] (examples.fl [1; 0; 0])).

(** A collection whose edges tensor is a 0-dimensional scalar. *)
Definition scalar_edges : spec.RaySegmentsSpec :=
  spec.mk_RaySegmentsSpec (tensor_of [] (fun _ => f32.one))
    None None None examples.cnts2 None.

(** A grid whose data tensor has only three dimensions. *)
Definition grid_3d : spec.MultiScaleGridSpec :=
  spec.mk_MultiScaleGridSpec
    (tensor_of [2; 2; 2] (fun _ => f32.one))
    (tensor_of [2; 2; 2] (fun _ => false))
    (tensor_of [6] (examples.fl [-1; -1; -1; 1; 1; 1])).

(** One ray lying in the plane x = 2: origin (2,0,0), direction
    (0,1,0). *)
Definition ray_in_plane : spec.RaysSpec :=
  spec.mk_RaysSpec (tensor_of [1; 3] (examples.fl [2; 0; 0]))
                   (tensor_of [1; 3] (examples.fl [0; 1; 0])).

(** The same ray with a negative zero as first direction component:
    direction (-0,1,0). *)
Definition neg_dirs : Z -> f32.float :=
  fun k => if k =? 0 then f32.neg_zero
           else if k =? 1 then f32.one else f32.zero.

Definition ray_in_plane_neg : spec.RaysSpec :=
  spec.mk_RaysSpec (tensor_of [1; 3] (examples.fl [2; 0; 0]))
                   (tensor_of [1; 3] neg_dirs).


(** A box with the plane x = 2 as a face and y in [1, 3]:
    (2,1,-1)-(5,3,1). *)
Definition box_face : device.AABBSpec :=
  device.AABBSpec_of_corners
    (make_float3 (f32.of_Z 2) (f32.of_Z 1) (f32.of_Z (-1)))
    (make_float3 (f32.of_Z 5) (f32.of_Z 3) (f32.of_Z 1)).

End inputs.

(* ================================================================== *)
(** * Properties *)

(** ** Integers *)

Lemma to_int32_small : forall n, fits_int32 n -> to_int32 n = n.
Proof.
  unfold fits_int32, to_int32, wrap, INT32_MAX; intros n Hn.
  change (2 ^ (32 - 1)) with 2147483648.
  change (2 ^ 32) with 4294967296.
  rewrite Z.mod_small; lia.
Qed.

Lemma to_int64_small : forall n, fits_int64 n -> to_int64 n = n.
Proof.
  unfold fits_int64, to_int64, wrap, INT64_MAX; intros n Hn.
  change (2 ^ (64 - 1)) with 9223372036854775808.
  change (2 ^ 64) with 18446744073709551616.
  rewrite Z.mod_small; lia.
Qed.

Lemma to_int32_nonneg : forall n, 0 <= n <= INT32_MAX -> to_int32 n = n.
Proof.
  intros n Hn; apply to_int32_small; unfold fits_int32, INT32_MAX in *; lia.
Qed.

(** ** Tensor accessors *)

Lemma size_first :
  forall (A : Type) (i : torch.TensorImpl A),
    torch.size (Some i) 0 =
    match torch.sizes i with
    | [] => Throw DimOutOfRange
    | n :: _ => Ok n
    end.
Proof.
  intros A i; unfold torch.size.
  destruct (torch.sizes i) as [|n l]; [reflexivity|].
  cbn [length]; rewrite Nat2Z.inj_succ.
  change (0 <? 0) with false; cbv iota.
  destruct (Z.leb_spec 0 0); [|lia].
  destruct (Z.ltb_spec 0 (Z.succ (Z.of_nat (length l)))); [reflexivity | lia].
Qed.

Lemma nth_pred_length :
  forall (A : Type) (l : list A) (d : A),
    nth (Nat.pred (length l)) l d = last l d.
Proof.
  induction l as [|a l IH]; intros d; [reflexivity|].
  destruct l as [|b l]; [reflexivity|].
  specialize (IH d); cbn [length Nat.pred] in *.
  cbn [nth last] in *. exact IH.
Qed.

Lemma size_last :
  forall (A : Type) (i : torch.TensorImpl A),
    torch.size (Some i) (-1) =
    match torch.sizes i with
    | [] => Throw DimOutOfRange
    | _ :: _ => Ok (last (torch.sizes i) 0)
    end.
Proof.
  intros A i; unfold torch.size.
  destruct (torch.sizes i) as [|n l] eqn:E; [reflexivity|].
  change (-1 <? 0) with true; cbv iota.
  set (len := length (n :: l)).
  assert (Hlen : (1 <= Z.of_nat len)) by (subst len; cbn [length]; lia).
  destruct (Z.leb_spec 0 (-1 + Z.of_nat len)); [|lia].
  destruct (Z.ltb_spec (-1 + Z.of_nat len) (Z.of_nat len)); [|lia].
  cbn [andb].
  replace (Z.to_nat (-1 + Z.of_nat len)) with (Nat.pred len) by lia.
  subst len; now rewrite nth_pred_length.
Qed.

Lemma size_at :
  forall (A : Type) (i : torch.TensorImpl A) (d : Z),
    0 <= d < rank i ->
    torch.size (Some i) d = Ok (nth (Z.to_nat d) (torch.sizes i) 0).
Proof.
  intros A i d Hd; unfold torch.size, rank in *.
  destruct (Z.ltb_spec d 0); [lia|].
  destruct (Z.leb_spec 0 d); [|lia].
  destruct (Z.ltb_spec d (Z.of_nat (length (torch.sizes i)))); [reflexivity | lia].
Qed.

(** ** The segments constructors in closed form *)

Lemma opt_ptr_guard :
  forall (A : Type) (t : torch.Tensor A),
    (if torch.defined t then torch.data_ptr t else Ok nullptr) = Ok (opt_ptr t).
Proof. intros A [i|]; reflexivity. Qed.

(** The current constructor returns [segments_view] exactly when it can
    read the extents it asks for, and throws otherwise. *)
Lemma new_PackedRaySegmentsSpec_eq :
  forall s,
    device.new_PackedRaySegmentsSpec s =
    if constructible s then Ok (segments_view s) else Throw DimOutOfRange.
Proof.
  intros s; unfold device.new_PackedRaySegmentsSpec, constructible, segments_view.
  rewrite !opt_ptr_guard; cbn [bind].
  destruct (spec.edges s) as [e|], (spec.chunk_cnts s) as [c|];
    cbn [torch.defined torch.dim torch.numel bind has_rank andb];
    rewrite ?size_first, ?size_last; unfold rank;
    repeat match goal with
           | |- context [torch.sizes ?t] => destruct (torch.sizes t)
           end; reflexivity.
Qed.

(** The earlier constructor needs [chunk_cnts] itself. *)
Lemma new_PackedRaySegmentsSpec0_eq :
  forall s,
    device0.new_PackedRaySegmentsSpec s =
    match spec.chunk_cnts s with
    | None => Throw UndefinedTensor
    | Some c =>
        match torch.sizes c with
        | [] => Throw DimOutOfRange
        | n :: _ => Ok (segments_view0 s n)
        end
    end.
Proof.
  intros s; unfold device0.new_PackedRaySegmentsSpec, segments_view0.
  rewrite !opt_ptr_guard; cbn [bind].
  destruct (spec.chunk_cnts s) as [c|]; [|reflexivity].
  cbn [torch.data_ptr bind opt_ptr].
  destruct (spec.edges s) as [e|];
    cbn [torch.defined torch.numel bind];
    rewrite size_first; destruct (torch.sizes c); reflexivity.
Qed.

(** ** Ray segments: layout flag *)

(** C3.  For a collection whose edges tensor is defined, a view is
    constructed exactly when the needed extents exist, its [is_batched]
    flag is true if and only if the edges tensor has more than one
    dimension, and the flag is determined by the rank of the edges tensor
    alone: two collections whose edges tensors have the same rank get the
    same flag, whatever their other fields are. *)
Theorem C3_is_batched_iff_edges_rank :
  forall (s : spec.RaySegmentsSpec) (e : torch.TensorImpl f32.float),
    spec.edges s = Some e ->
    constructible s = true ->
    exists v,
      device.new_PackedRaySegmentsSpec s = Ok v /\
      (device.is_batched v = true <-> 1 < rank e) /\
      (forall s' e' v',
          spec.edges s' = Some e' ->
          rank e' = rank e ->
          device.new_PackedRaySegmentsSpec s' = Ok v' ->
          device.is_batched v' = device.is_batched v).
Proof.
  intros s e He Hc.
  exists (segments_view s); split; [|split].
  - now rewrite new_PackedRaySegmentsSpec_eq, Hc.
  - unfold segments_view; cbn [device.is_batched]; rewrite He.
    apply Z.ltb_lt.
  - intros s' e' v' He' Hr Hv'.
    rewrite new_PackedRaySegmentsSpec_eq in Hv'.
    destruct (constructible s'); [|discriminate].
    injection Hv' as <-.
    unfold segments_view; cbn [device.is_batched].
    now rewrite He, He', Hr.
Qed.

Lemma C3_witness :
  spec.edges examples.batched_2x3 <> None /\
  constructible examples.batched_2x3 = true /\
  exists v,
    device.new_PackedRaySegmentsSpec examples.batched_2x3 = Ok v /\
    device.is_batched v = true.
Proof.
  split; [discriminate|]. split; [reflexivity|].
  destruct (C3_is_batched_iff_edges_rank
              examples.batched_2x3 eq_refl eq_refl) as (v & Hv & Hb & _).
  exists v; split; [exact Hv|].
  apply Hb; reflexivity.
Defined.

(** ** Ray segments: optional fields *)

(** C4.  The four optional tensors [is_left], [is_right], [chunk_starts]
    and [ray_ids] never make the construction fail and are exposed
    unchanged: for every collection, whether the constructor succeeds is
    decided by the edges and [chunk_cnts] tensors alone (each must be
    absent or have an extent to read), whatever the four optional tensors
    are; and in the view it returns, an absent optional tensor is the
    null pointer and a present one is its own data pointer. *)
Theorem C4_optional_fields_absent_ok :
  forall (e : torch.Tensor f32.float) (cc : torch.Tensor Z)
         (l r : torch.Tensor bool) (cs ri : torch.Tensor Z),
    (succeeds (device.new_PackedRaySegmentsSpec
                 (spec.mk_RaySegmentsSpec e l r cs cc ri)) <->
     has_rank e = true /\ has_rank cc = true) /\
    (forall v,
        device.new_PackedRaySegmentsSpec
          (spec.mk_RaySegmentsSpec e l r cs cc ri) = Ok v ->
        device.is_left v = opt_ptr l /\
        device.is_right v = opt_ptr r /\
        device.chunk_starts v = opt_ptr cs /\
        device.ray_ids v = opt_ptr ri /\
        device.edges v = opt_ptr e /\
        device.chunk_cnts v = opt_ptr cc).
Proof.
  intros e cc l r cs ri.
  rewrite new_PackedRaySegmentsSpec_eq; unfold constructible, succeeds.
  cbn [spec.edges spec.chunk_cnts].
  destruct (has_rank e), (has_rank cc); cbn [andb]; split;
    try (split; [intros [v Hv]; discriminate | intros [? ?]; discriminate]);
    try (intros v Hv; discriminate).
  - split; [intros _; split; reflexivity | intros _; eexists; reflexivity].
  - intros v Hv; injection Hv as <-. repeat split.
Qed.

Lemma C4_witness :
  exists v,
    device.new_PackedRaySegmentsSpec examples.flat_light = Ok v /\
    device.is_left v = nullptr /\
    device.is_right v = nullptr /\
    device.chunk_starts v = nullptr /\
    device.ray_ids v = nullptr.
Proof.
  destruct (C4_optional_fields_absent_ok
              examples.flat_edges examples.cnts2 None None None None)
    as [Hs Hf].
  destruct (proj2 Hs (conj eq_refl eq_refl)) as [v Hv].
  exists v; split; [exact Hv|].
  destruct (Hf v Hv) as (Hl & Hr & Hcs & Hri & _).
  repeat split; assumption.
Defined.

(** X15.  The earlier constructor treats the same four tensors the same
    way, once [chunk_cnts] is a defined tensor with a first extent. *)
Lemma optional_fields_absent_ok0 :
  forall (e : torch.Tensor f32.float) (c : torch.TensorImpl Z),
    torch.sizes c <> [] ->
    forall (l r : torch.Tensor bool) (cs ri : torch.Tensor Z),
    exists v,
      device0.new_PackedRaySegmentsSpec
        (spec.mk_RaySegmentsSpec e l r cs (Some c) ri) = Ok v /\
      device0.is_left v = opt_ptr l /\
      device0.is_right v = opt_ptr r /\
      device0.chunk_starts v = opt_ptr cs /\
      device0.ray_ids v = opt_ptr ri.
Proof.
  intros e c Hc l r cs ri.
  rewrite new_PackedRaySegmentsSpec0_eq; cbn [spec.chunk_cnts].
  destruct (torch.sizes c) as [|n ns]; [congruence|].
  eexists; split; [reflexivity|]. repeat split.
Qed.

(** ** Ray segments: [chunk_cnts] and the counts *)

(** C5, as stated, fails on the current revision: a flattened collection
    without [chunk_cnts] is accepted, with a null [chunk_cnts] pointer
    and [n_rays = 0]. *)
Lemma C5_counterexample :
  spec.chunk_cnts examples.flat_no_cnts = None /\
  exists v,
    device.new_PackedRaySegmentsSpec examples.flat_no_cnts = Ok v /\
    device.is_batched v = false /\
    device.chunk_cnts v = nullptr /\
    device.n_rays v = 0.
Proof.
  split; [reflexivity|].
  eexists; split; [reflexivity|]. repeat split.
Qed.

(** C5, amended.  For a flattened collection (edges of shape [[n]]):
    - without [chunk_cnts], the earlier constructor throws at
      construction, while the current one returns a view with a null
      [chunk_cnts] pointer and [n_rays = 0];
    - with [chunk_cnts] of shape [[m]], the earlier view has
      [n_rays = m] and the current view has [n_rays] equal to [m]
      narrowed to 32 bits, which is [m] whenever [m <= INT32_MAX]. *)
Theorem C5_chunk_cnts_by_revision :
  forall (s : spec.RaySegmentsSpec) (e : torch.TensorImpl f32.float) (n : Z),
    spec.edges s = Some e ->
    torch.sizes e = [n] ->
    (spec.chunk_cnts s = None ->
       device0.new_PackedRaySegmentsSpec s = Throw UndefinedTensor /\
       exists v,
         device.new_PackedRaySegmentsSpec s = Ok v /\
         device.chunk_cnts v = nullptr /\
         device.n_rays v = 0) /\
    (forall (c : torch.TensorImpl Z) (m : Z),
        spec.chunk_cnts s = Some c ->
        torch.sizes c = [m] ->
        (exists v0,
            device0.new_PackedRaySegmentsSpec s = Ok v0 /\
            device0.n_rays v0 = m) /\
        (exists v,
            device.new_PackedRaySegmentsSpec s = Ok v /\
            device.n_rays v = to_int32 m /\
            (0 <= m <= INT32_MAX -> device.n_rays v = m))).
Proof.
  intros s e n He Hn; split.
  - intros Hc; split.
    + now rewrite new_PackedRaySegmentsSpec0_eq, Hc.
    + exists (segments_view s); split; [|split].
      * rewrite new_PackedRaySegmentsSpec_eq; unfold constructible.
        now rewrite He, Hc; cbn [has_rank]; rewrite Hn.
      * unfold segments_view; cbn [device.chunk_cnts]; now rewrite Hc.
      * unfold segments_view; cbn [device.n_rays]; now rewrite Hc.
  - intros c m Hc Hm; split.
    + eexists; split.
      * rewrite new_PackedRaySegmentsSpec0_eq, Hc, Hm; reflexivity.
      * reflexivity.
    + exists (segments_view s); split; [|split].
      * rewrite new_PackedRaySegmentsSpec_eq; unfold constructible.
        now rewrite He, Hc; cbn [has_rank]; rewrite Hn, Hm.
      * unfold segments_view; cbn [device.n_rays]; now rewrite Hc, Hm.
      * intros Hb; unfold segments_view; cbn [device.n_rays].
        rewrite Hc, Hm; cbn [hd]. now apply to_int32_nonneg.
Qed.

Lemma C5_witness :
  (exists v0,
      device0.new_PackedRaySegmentsSpec examples.flat_light = Ok v0 /\
      device0.n_rays v0 = 2) /\
  (exists v,
      device.new_PackedRaySegmentsSpec examples.flat_light = Ok v /\
      device.n_rays v = 2).
Proof.
  destruct (C5_chunk_cnts_by_revision
              examples.flat_light (n := 4) eq_refl eq_refl) as [_ H].
  destruct (H _ 2 eq_refl eq_refl) as [H0 (v & Hv & _ & Hn)].
  split; [exact H0|].
  exists v; split; [exact Hv|].
  apply Hn; unfold INT32_MAX; lia.
Defined.

(** ** Ray segments: the two revisions *)

(** C8, as stated, fails for [n_rays]: with [2^31] rays the earlier view
    holds [2147483648] and the current one [-2147483648]. *)
Lemma C8_counterexample :
  exists v0 v,
    device0.new_PackedRaySegmentsSpec examples.flat_huge = Ok v0 /\
    device.new_PackedRaySegmentsSpec examples.flat_huge = Ok v /\
    device0.n_rays v0 = 2147483648 /\
    device.n_rays v = -2147483648.
Proof.
  do 2 eexists; split; [reflexivity|]. split; [reflexivity|].
  split; reflexivity.
Qed.

(** C8, amended.  On the earlier revision's domain (edges defined and
    one-dimensional, [chunk_cnts] defined) the current constructor
    succeeds whenever the earlier one does, and its view exposes the same
    six pointers and the same [n_edges]; its [n_rays] is the earlier
    [n_rays] narrowed to 32 bits, hence the same value whenever that is
    at most [INT32_MAX].  The view is flagged as not batched. *)
Theorem C8_current_refines_earlier :
  forall (s : spec.RaySegmentsSpec) (e : torch.TensorImpl f32.float)
         (c : torch.TensorImpl Z) (n : Z) (v0 : device0.PackedRaySegmentsSpec),
    spec.edges s = Some e ->
    torch.sizes e = [n] ->
    spec.chunk_cnts s = Some c ->
    device0.new_PackedRaySegmentsSpec s = Ok v0 ->
    exists v,
      device.new_PackedRaySegmentsSpec s = Ok v /\
      device.edges v = device0.edges v0 /\
      device.is_left v = device0.is_left v0 /\
      device.is_right v = device0.is_right v0 /\
      device.chunk_starts v = device0.chunk_starts v0 /\
      device.chunk_cnts v = device0.chunk_cnts v0 /\
      device.ray_ids v = device0.ray_ids v0 /\
      device.n_edges v = device0.n_edges v0 /\
      device.n_rays v = to_int32 (device0.n_rays v0) /\
      (0 <= device0.n_rays v0 <= INT32_MAX ->
       device.n_rays v = device0.n_rays v0) /\
      device.is_batched v = false.
Proof.
  intros s e c n v0 He Hn Hc H0.
  rewrite new_PackedRaySegmentsSpec0_eq, Hc in H0.
  destruct (torch.sizes c) as [|m ms] eqn:Hm; [discriminate|].
  injection H0 as <-.
  exists (segments_view s); split.
  - rewrite new_PackedRaySegmentsSpec_eq; unfold constructible.
    now rewrite He, Hc; cbn [has_rank]; rewrite Hn, Hm.
  - unfold segments_view, segments_view0;
      cbn [device.edges device.is_left device.is_right device.chunk_starts
           device.chunk_cnts device.ray_ids device.n_edges device.n_rays
           device.is_batched
           device0.edges device0.is_left device0.is_right
           device0.chunk_starts device0.chunk_cnts device0.ray_ids
           device0.n_edges device0.n_rays].
    rewrite Hc, Hm, He; cbn [hd]; unfold rank; rewrite Hn.
    repeat split. intros Hb; now apply to_int32_nonneg.
Qed.

Lemma C8_witness :
  exists v0 v,
    device0.new_PackedRaySegmentsSpec examples.flat_full = Ok v0 /\
    device.new_PackedRaySegmentsSpec examples.flat_full = Ok v /\
    device.edges v = device0.edges v0 /\
    device.n_edges v = device0.n_edges v0 /\
    device.n_rays v = device0.n_rays v0.
Proof.
  eexists.
  destruct (C8_current_refines_earlier
              examples.flat_full (n := 4) eq_refl eq_refl eq_refl eq_refl)
    as (v & Hv & He & _ & _ & _ & _ & _ & Hne & _ & Hnr & _).
  exists v; split; [reflexivity|]. split; [exact Hv|].
  split; [exact He|]. split; [exact Hne|].
  apply Hnr; cbn; unfold INT32_MAX; lia.
Defined.

(** ** Ray segments: batched and flattened counts *)



(** C10, as stated, fails for [2^31] edges: [n_edges_per_ray] is
    [-2147483648], not the last extent [2147483648], and differs from
    [n_edges]. *)
Lemma C10_counterexample :
  exists v,
    device.new_PackedRaySegmentsSpec examples.flat_huge = Ok v /\
    device.is_batched v = false /\
    device.n_edges v = 2147483648 /\
    device.n_edges_per_ray v = -2147483648.
Proof.
  eexists; split; [reflexivity|]. repeat split.
Qed.

(** C10, amended.  For a flattened collection (edges of shape [[n]]) the
    current constructor returns a view with [is_batched = false],
    [n_edges = n] and [n_edges_per_ray] equal to [n] narrowed to 32 bits,
    so [n_edges_per_ray = n_edges] whenever [n <= INT32_MAX]; without
    [chunk_cnts] the view is still constructed, with [n_rays = 0] and a
    null [chunk_cnts] pointer. *)
Theorem C10_flattened_view :
  forall (s : spec.RaySegmentsSpec) (e : torch.TensorImpl f32.float) (n : Z),
    spec.edges s = Some e ->
    torch.sizes e = [n] ->
    has_rank (spec.chunk_cnts s) = true ->
    exists v,
      device.new_PackedRaySegmentsSpec s = Ok v /\
      device.is_batched v = false /\
      device.n_edges v = n /\
      device.n_edges_per_ray v = to_int32 n /\
      (0 <= n <= INT32_MAX -> device.n_edges_per_ray v = device.n_edges v) /\
      (spec.chunk_cnts s = None ->
       device.n_rays v = 0 /\ device.chunk_cnts v = nullptr).
Proof.
  intros s e n He Hs Hc.
  exists (segments_view s); split.
  - rewrite new_PackedRaySegmentsSpec_eq; unfold constructible.
    now rewrite He, Hc; cbn [has_rank]; rewrite Hs.
  - unfold segments_view;
      cbn [device.is_batched device.n_edges device.n_edges_per_ray
           device.n_rays device.chunk_cnts].
    rewrite He; unfold rank; rewrite Hs.
    cbn [length last torch.prod_sizes fold_right].
    rewrite Z.mul_1_r. repeat split.
    + intros Hn; now apply to_int32_nonneg.
    + now rewrite H.
    + now rewrite H.
Qed.

Lemma C10_witness :
  has_rank (spec.chunk_cnts examples.flat_no_cnts) = true /\
  exists v,
    device.new_PackedRaySegmentsSpec examples.flat_no_cnts = Ok v /\
    device.is_batched v = false /\
    device.n_edges v = 4 /\
    device.n_edges_per_ray v = 4 /\
    device.n_rays v = 0 /\
    device.chunk_cnts v = nullptr.
Proof.
  split; [reflexivity|].
  destruct (C10_flattened_view
              examples.flat_no_cnts (n := 4) eq_refl eq_refl eq_refl)
    as (v & Hv & Hb & Hn & _ & Hk & Hc).
  destruct (Hc eq_refl) as [Hr Hp].
  exists v; repeat split; try assumption.
  rewrite Hk, Hn; [reflexivity | unfold INT32_MAX; lia].
Defined.

(** ** Occupancy grid view *)

Lemma index_in_range :
  forall (A : Type) (b : span A) (k : Z),
    0 <= k < span_len b -> index (Some b) k = Some (span_at b k).
Proof.
  intros A b k Hk; unfold index.
  destruct (Z.leb_spec 0 k); [|lia].
  destruct (Z.ltb_spec k (span_len b)); [reflexivity | lia].
Qed.

(** C7, as stated, fails for an extent of [2^31]: the view's resolution
    holds [-2147483648] where the data tensor's extent is [2147483648]. *)
Lemma C7_counterexample :
  exists v,
    device.new_PackedMultiScaleGridSpec examples.grid_huge = Ok v /\
    torch.size (spec.data examples.grid_huge) 1 = Ok 2147483648 /\
    torch.size (spec.occupied examples.grid_huge) 1 = Ok 2147483648 /\
    ix (device.resolution v) = -2147483648.
Proof.
  eexists; split; [reflexivity|]. repeat split.
Qed.

(** C7, amended.  For a grid whose [data] and [occupied] tensors both
    have shape [[L; nx; ny; nz]] with every extent at most [INT32_MAX],
    and whose [base_aabb] has shape [[6]], the constructed view has
    [levels = L] and [resolution = (nx, ny, nz)] (read from [data]), which
    are also the extents of [occupied]; it aliases the three buffers; and
    [AABBSpec] reads [base_aabb] as min corner = elements 0..2, max
    corner = elements 3..5. *)
Theorem C7_grid_view_shape :
  forall (s : spec.MultiScaleGridSpec)
         (d : torch.TensorImpl f32.float) (o : torch.TensorImpl bool)
         (b : torch.TensorImpl f32.float) (L nx ny nz : Z),
    spec.data s = Some d ->
    spec.occupied s = Some o ->
    spec.base_aabb s = Some b ->
    torch.sizes d = [L; nx; ny; nz] ->
    torch.sizes o = [L; nx; ny; nz] ->
    torch.sizes b = [6] ->
    torch.wf_impl b ->
    0 <= L <= INT32_MAX -> 0 <= nx <= INT32_MAX ->
    0 <= ny <= INT32_MAX -> 0 <= nz <= INT32_MAX ->
    exists v box,
      device.new_PackedMultiScaleGridSpec s = Ok v /\
      device.levels v = L /\
      device.resolution v = make_int3 nx ny nz /\
      torch.sizes o = [device.levels v; ix (device.resolution v);
                       iy (device.resolution v); iz (device.resolution v)] /\
      device.data v = Some (torch.storage d) /\
      device.occupied v = Some (torch.storage o) /\
      device.base_aabb v = Some (torch.storage b) /\
      device.AABBSpec_of_ptr (device.base_aabb v) = Some box /\
      device.min box = make_float3 (span_at (torch.storage b) 0)
                                   (span_at (torch.storage b) 1)
                                   (span_at (torch.storage b) 2) /\
      device.max box = make_float3 (span_at (torch.storage b) 3)
                                   (span_at (torch.storage b) 4)
                                   (span_at (torch.storage b) 5).
Proof.
  intros s d o b L nx ny nz Hd Ho Hb Hsd Hso Hsb (_ & _ & Hlen) HL Hx Hy Hz.
  rewrite Hsb in Hlen; cbn in Hlen.
  unfold device.new_PackedMultiScaleGridSpec.
  rewrite Hd, Ho, Hb; cbn [torch.data_ptr bind].
  rewrite !size_at by (unfold rank; rewrite Hsd; cbn; lia).
  rewrite Hsd; cbn [bind nth Z.to_nat Pos.to_nat Pos.iter_op Nat.add].
  rewrite !to_int32_nonneg by assumption.
  do 2 eexists; split; [reflexivity|].
  cbn [device.levels device.resolution device.data device.occupied
       device.base_aabb ix iy iz].
  repeat (split; [first [reflexivity | assumption]|]).
  unfold device.AABBSpec_of_ptr.
  rewrite !index_in_range by lia.
  repeat split.
Qed.

Lemma C7_witness :
  exists v box,
    device.new_PackedMultiScaleGridSpec examples.grid_small = Ok v /\
    device.levels v = 1 /\
    device.resolution v = make_int3 2 2 2 /\
    device.AABBSpec_of_ptr (device.base_aabb v) = Some box /\
    x (device.min box) = f32.of_Z (-1) /\
    x (device.max box) = f32.of_Z 1.
Proof.
  assert (Hwf : torch.wf_impl
                  (torch.mk_tensor [6]
                     (mk_span 6 (examples.fl [-1; -1; -1; 1; 1; 1])))).
  { repeat split; cbn; repeat constructor; unfold INT64_MAX; lia. }
  destruct (C7_grid_view_shape
              examples.grid_small (L := 1) (nx := 2) (ny := 2) (nz := 2)
              eq_refl eq_refl eq_refl eq_refl eq_refl eq_refl Hwf)
    as (v & box & Hv & Hl & Hr & _ & _ & _ & _ & Hbox & Hmin & Hmax);
    try (unfold INT32_MAX; lia).
  exists v, box; repeat split; try assumption.
  - rewrite Hmin; reflexivity.
  - rewrite Hmax; reflexivity.
Defined.

(** The earlier grid constructor narrows the same four extents the same
    way. *)
Lemma grid_view_shape0 :
  forall (s : spec0.MultiScaleGridSpec)
         (d : torch.TensorImpl f32.float) (o : torch.TensorImpl bool)
         (b : torch.TensorImpl f32.float) (L nx ny nz : Z),
    spec0.data s = Some d ->
    spec0.binary s = Some o ->
    spec0.base_aabb s = Some b ->
    torch.sizes d = [L; nx; ny; nz] ->
    0 <= L <= INT32_MAX -> 0 <= nx <= INT32_MAX ->
    0 <= ny <= INT32_MAX -> 0 <= nz <= INT32_MAX ->
    exists v,
      device0.new_PackedMultiScaleGridSpec s = Ok v /\
      device0.levels v = L /\
      device0.resolution v = make_int3 nx ny nz /\
      device0.data v = Some (torch.storage d) /\
      device0.binary v = Some (torch.storage o) /\
      device0.base_aabb v = Some (torch.storage b).
Proof.
  intros s d o b L nx ny nz Hd Ho Hb Hsd HL Hx Hy Hz.
  unfold device0.new_PackedMultiScaleGridSpec.
  rewrite Hd, Ho, Hb; cbn [torch.data_ptr bind].
  rewrite !size_at by (unfold rank; rewrite Hsd; cbn; lia).
  rewrite Hsd; cbn [bind nth Z.to_nat Pos.to_nat Pos.iter_op Nat.add].
  rewrite !to_int32_nonneg by assumption.
  eexists; split; [reflexivity|]. repeat split.
Qed.

(** ** Ray view *)

(** [1.0f / 0] is an infinity of the sign of the zero. *)
Lemma div_one_zero :
  forall sgn : bool, f32.div f32.one (S754_zero sgn) = S754_infinity sgn.
Proof. intros [|]; reflexivity. Qed.

Lemma i32_mul3 :
  forall id : Z,
    0 <= id -> 3 * id + 2 <= INT32_MAX -> i32.mul id 3 = 3 * id.
Proof.
  intros id Hid Hmax; unfold i32.mul.
  rewrite to_int32_nonneg; lia.
Qed.

Lemma i32_add_small :
  forall a c : Z,
    0 <= a -> 0 <= c -> a + c <= INT32_MAX -> i32.add a c = a + c.
Proof.
  intros a c Ha Hc Hmax; unfold i32.add.
  rewrite to_int32_nonneg; lia.
Qed.

Lemma i64_mul3 :
  forall id : Z,
    0 <= id -> 3 * id + 2 <= INT64_MAX -> i64.mul id 3 = 3 * id.
Proof.
  intros id Hid Hmax; unfold i64.mul.
  rewrite to_int64_small; unfold fits_int64; lia.
Qed.

Lemma i64_add_small :
  forall a c : Z,
    0 <= a -> 0 <= c -> a + c <= INT64_MAX -> i64.add a c = a + c.
Proof.
  intros a c Ha Hc Hmax; unfold i64.add.
  rewrite to_int64_small; unfold fits_int64; lia.
Qed.

(** Element count of a well-formed [[N; 3]] tensor. *)
Lemma rows3_len :
  forall (t : torch.TensorImpl f32.float) (N : Z),
    torch.sizes t = [N; 3] -> torch.wf_impl t ->
    span_len (torch.storage t) = 3 * N /\ 3 * N <= INT64_MAX.
Proof.
  intros t N Hs (_ & Hmax & Hlen).
  rewrite Hs in *; unfold torch.prod_sizes in *; cbn [fold_right] in *; lia.
Qed.

(** C1, as stated, fails in the current revision for a large index:
    with [1431655767] rays, the view of ray [1431655766] takes its first
    origin component from element 2 of the buffer (the 32-bit product
    [id * 3] wraps), which is 0, while [origins[3 * id]] is 1. *)
Lemma C1_counterexample :
  exists rays r,
    device.new_PackedRaysSpec examples.many_rays = Ok rays /\
    (0 <= 1431655766 < device.N rays) /\
    device.new_SingleRaySpec rays 1431655766 f32.zero f32.one = Some r /\
    x (device.origin r) = f32.zero /\
    index (device.origins rays) (3 * 1431655766) = Some f32.one.
Proof.
  do 2 eexists; split; [reflexivity|].
  split; [cbn; lia|]. split; [reflexivity|]. split; reflexivity.
Qed.

(** C1, amended.  For a rays buffer of [N] rays (origins and dirs of
    shape [[N; 3]]) and an index [0 <= id < N] whose last element index
    [3 * id + 2] fits the 32-bit index type, the per-ray view exists and
    has origin and dir equal to elements [3 id], [3 id + 1], [3 id + 2]
    of the two buffers, [inv_dir[k] = 1.0f / dir[k]] in binary32 (an
    infinity of the sign of the zero when [dir[k]] is a zero), and the
    supplied [tmin], [tmax] unchanged. *)
Theorem C1_single_ray_view :
  forall (s : spec.RaysSpec) (o d : torch.TensorImpl f32.float) (N id : Z)
         (t0 t1 : f32.float),
    spec.origins s = Some o ->
    spec.dirs s = Some d ->
    torch.sizes o = [N; 3] -> torch.wf_impl o ->
    torch.sizes d = [N; 3] -> torch.wf_impl d ->
    0 <= id < N ->
    3 * id + 2 <= INT32_MAX ->
    exists rays r,
      device.new_PackedRaysSpec s = Ok rays /\
      device.new_SingleRaySpec rays id t0 t1 = Some r /\
      device.origin r = make_float3 (span_at (torch.storage o) (3 * id))
                                    (span_at (torch.storage o) (3 * id + 1))
                                    (span_at (torch.storage o) (3 * id + 2)) /\
      device.dir r = make_float3 (span_at (torch.storage d) (3 * id))
                                 (span_at (torch.storage d) (3 * id + 1))
                                 (span_at (torch.storage d) (3 * id + 2)) /\
      device.inv_dir r = make_float3 (f32.div f32.one (x (device.dir r)))
                                     (f32.div f32.one (y (device.dir r)))
                                     (f32.div f32.one (z (device.dir r))) /\
      (forall sgn, x (device.dir r) = S754_zero sgn ->
                   x (device.inv_dir r) = S754_infinity sgn) /\
      (forall sgn, y (device.dir r) = S754_zero sgn ->
                   y (device.inv_dir r) = S754_infinity sgn) /\
      (forall sgn, z (device.dir r) = S754_zero sgn ->
                   z (device.inv_dir r) = S754_infinity sgn) /\
      device.tmin r = t0 /\
      device.tmax r = t1.
Proof.
  intros s o d N id t0 t1 Ho Hd Hso Hwo Hsd Hwd Hid Hmax.
  destruct (rows3_len Hso Hwo) as [Hlo _].
  destruct (rows3_len Hsd Hwd) as [Hld _].
  unfold device.new_PackedRaysSpec.
  rewrite Ho, Hd; cbn [torch.data_ptr bind].
  rewrite size_at by (unfold rank; rewrite Hso; cbn; lia).
  cbn [bind]. do 2 eexists; split; [reflexivity|].
  unfold device.new_SingleRaySpec; cbn [device.origins device.dirs].
  rewrite i32_mul3 by lia.
  rewrite !i32_add_small by lia.
  rewrite !index_in_range by lia.
  split; [reflexivity|].
  cbn [device.origin device.dir device.inv_dir device.tmin device.tmax x y z].
  repeat split; intros sgn ->; apply div_one_zero.
Qed.

Lemma C1_witness :
  exists rays r,
    device.new_PackedRaysSpec examples.one_ray = Ok rays /\
    device.new_SingleRaySpec rays 0 (f32.of_Z 0) (f32.of_Z 10) = Some r /\
    device.origin r = make_float3 f32.zero f32.zero f32.zero /\
    device.dir r = make_float3 f32.one f32.zero f32.zero /\
    device.inv_dir r = make_float3 f32.one f32.inf f32.inf /\
    device.tmin r = f32.of_Z 0 /\
    device.tmax r = f32.of_Z 10.
Proof.
  assert (Hwo : torch.wf_impl
                  (torch.mk_tensor [1; 3] (mk_span 3 (examples.fl [0; 0; 0])))).
  { repeat split; cbn; repeat constructor; unfold INT64_MAX; lia. }
  assert (Hwd : torch.wf_impl
                  (torch.mk_tensor [1; 3] (mk_span 3 (examples.fl [1; 0; 0])))).
  { repeat split; cbn; repeat constructor; unfold INT64_MAX; lia. }
  destruct (C1_single_ray_view
              examples.one_ray (N := 1) (id := 0) (f32.of_Z 0) (f32.of_Z 10)
              eq_refl eq_refl eq_refl Hwo eq_refl Hwd)
    as (rays & r & Hrays & Hr & Ho & Hd & Hi & _ & _ & _ & Ht0 & Ht1);
    try (unfold INT32_MAX; lia).
  exists rays, r.
  split; [exact Hrays|]. split; [exact Hr|].
  split; [rewrite Ho; reflexivity|].
  split; [rewrite Hd; reflexivity|].
  split; [rewrite Hi, Hd; reflexivity|].
  split; assumption.
Defined.

(** X1.  In the earlier revision the index is 64-bit and the shape
    invariant of the tensor already keeps [3 * id + 2] in range: every
    [0 <= id < N] is served. *)
Lemma single_ray_view0 :
  forall (s : spec.RaysSpec) (o d : torch.TensorImpl f32.float) (N id : Z)
         (t0 t1 : f32.float),
    spec.origins s = Some o ->
    spec.dirs s = Some d ->
    torch.sizes o = [N; 3] -> torch.wf_impl o ->
    torch.sizes d = [N; 3] -> torch.wf_impl d ->
    0 <= id < N ->
    exists rays r,
      device0.new_PackedRaysSpec s = Ok rays /\
      device0.new_SingleRaySpec rays id t0 t1 = Some r /\
      device0.origin r = make_float3 (span_at (torch.storage o) (3 * id))
                                     (span_at (torch.storage o) (3 * id + 1))
                                     (span_at (torch.storage o) (3 * id + 2)) /\
      device0.dir r = make_float3 (span_at (torch.storage d) (3 * id))
                                  (span_at (torch.storage d) (3 * id + 1))
                                  (span_at (torch.storage d) (3 * id + 2)) /\
      device0.inv_dir r = make_float3 (f32.div f32.one (x (device0.dir r)))
                                      (f32.div f32.one (y (device0.dir r)))
                                      (f32.div f32.one (z (device0.dir r))) /\
      device0.tmin r = t0 /\
      device0.tmax r = t1.
Proof.
  intros s o d N id t0 t1 Ho Hd Hso Hwo Hsd Hwd Hid.
  destruct (rows3_len Hso Hwo) as [Hlo Hmax].
  destruct (rows3_len Hsd Hwd) as [Hld _].
  unfold device0.new_PackedRaysSpec.
  rewrite Ho, Hd; cbn [torch.data_ptr bind].
  rewrite size_at by (unfold rank; rewrite Hso; cbn; lia).
  cbn [bind]. do 2 eexists; split; [reflexivity|].
  unfold device0.new_SingleRaySpec; cbn [device0.origins device0.dirs].
  rewrite i64_mul3 by lia.
  rewrite !i64_add_small by lia.
  rewrite !index_in_range by lia.
  split; [reflexivity|]. repeat split.
Qed.

(** ** Ray / box intersection *)

(** Case analysis on two or three floats and on the comparisons of their
    exponents and mantissas. *)
Ltac cmp_cases :=
  repeat match goal with
         | |- context [Z.compare ?a ?b] => destruct (Z.compare_spec a b)
         | |- context [?f Eq ?a ?b] =>
             let H := fresh "Hc" in
             pose proof (Pos.compare_spec a b) as H;
             change (Pos.compare a b) with (f Eq a b) in H;
             destruct H
         end.

Ltac float_cases :=
  unfold f32.leb, f32.ltb, SFleb, SFltb, SFcompare;
  repeat match goal with s : bool |- _ => destruct s end;
  cbv beta iota;
  cmp_cases; cbv beta iota delta [CompOpp];
  intros; try discriminate; try reflexivity; try lia.





Lemma leb_not_ltb :
  forall a b : f32.float, f32.leb a b = true -> f32.ltb b a = false.
Proof.
  intros [sa|sa| |sa ma ea] [sb|sb| |sb mb eb]; float_cases.
Qed.



(** *** [fmax] and [fmin] *)











(** *** One slab *)


(** A slab without bounds leaves an interval as it is. *)
Lemma meet_no_bound :
  forall w : geometry.interval,
    geometry.meet w (geometry.mk_interval S754_nan S754_nan) = w.
Proof.
  intros [a b]; unfold geometry.meet, geometry.fmax, geometry.fmin.
  cbn [geometry.t_enter geometry.t_exit f32.is_nan].
  destruct a, b; reflexivity.
Qed.

(** *** The intersection *)




(** The other two intersection cases of the specification.  The ray of
    C2 misses the box (2,5,5)-(3,6,6). *)
Lemma ray_misses_offset_box :
  exists rays ray,
    device.new_PackedRaysSpec examples.one_ray = Ok rays /\
    device.new_SingleRaySpec rays 0 (f32.of_Z 0) (f32.of_Z 10) = Some ray /\
    geometry.is_empty
      (geometry.ray_aabb_intersect ray
         (device.AABBSpec_of_corners
            (make_float3 (f32.of_Z 2) (f32.of_Z 5) (f32.of_Z 5))
            (make_float3 (f32.of_Z 3) (f32.of_Z 6) (f32.of_Z 6)))) = true.
Proof.
  do 2 eexists; split; [reflexivity|]. split; reflexivity.
Qed.

(** A ray with a zero x-component whose origin has its x inside the
    box's x-range is not restricted by the x-axis, also when the origin
    lies on a face of the box and whatever the sign of the zero: the ray
    from (2,0,0) along (0,1,0) or (-0,1,0) meets the box
    (2,1,-1)-(5,3,1) in [1,3]. *)
Lemma ray_on_face_unrestricted :
  exists rays ray rays' ray',
    device.new_PackedRaysSpec inputs.ray_in_plane = Ok rays /\
    device.new_SingleRaySpec rays 0 (f32.of_Z 0) (f32.of_Z 10) = Some ray /\
    x (device.inv_dir ray) = f32.inf /\
    geometry.ray_aabb_intersect ray inputs.box_face
    = geometry.mk_interval (f32.of_Z 1) (f32.of_Z 3) /\
    device.new_PackedRaysSpec inputs.ray_in_plane_neg = Ok rays' /\
    device.new_SingleRaySpec rays' 0 (f32.of_Z 0) (f32.of_Z 10) = Some ray' /\
    x (device.inv_dir ray') = f32.neg_inf /\
    geometry.ray_aabb_intersect ray' inputs.box_face
    = geometry.mk_interval (f32.of_Z 1) (f32.of_Z 3).
Proof.
  do 4 eexists; split; [reflexivity|]. split; [reflexivity|].
  split; [reflexivity|]. split; [reflexivity|].
  split; [reflexivity|]. split; [reflexivity|].
  split; reflexivity.
Qed.

(** ** Occupancy lookup

    The lookup routine is not part of the header, and the specification
    leaves open how a coordinate outside the resolution is treated
    (clamped or rejected).  The lemmas below record what the modelled
    lookup does under either policy; they do not settle how the actual
    routine behaves. *)

Lemma settle_in_range :
  forall (pol : geometry.range_policy) (res i j : Z),
    1 <= res -> geometry.settle pol res i = Some j -> 0 <= j < res.
Proof.
  intros pol res i j Hres; unfold geometry.settle.
  destruct (Z.leb_spec 0 i), (Z.ltb_spec i res); cbn [andb];
    destruct pol; intros Hj; inversion Hj; subst; lia.
Qed.

Lemma settle_id :
  forall (pol : geometry.range_policy) (res i : Z),
    0 <= i < res -> geometry.settle pol res i = Some i.
Proof.
  intros pol res i Hi; unfold geometry.settle.
  destruct (Z.leb_spec 0 i); [|lia].
  destruct (Z.ltb_spec i res); [reflexivity | lia].
Qed.

Lemma axis_coord_in_range :
  forall (pol : geometry.range_policy) (p lo hi : f32.float) (res j : Z),
    1 <= res -> geometry.axis_coord pol p lo hi res = Some j -> 0 <= j < res.
Proof.
  intros pol p lo hi res j Hres; unfold geometry.axis_coord.
  destruct (geometry.voxel_coord p lo hi res) as [i|]; [|discriminate].
  now apply settle_in_range.
Qed.

Lemma voxel_at_in_grid :
  forall (pol : geometry.range_policy) (g : device.PackedMultiScaleGridSpec)
         (box : device.AABBSpec) (p : float3) (v : int3),
    1 <= ix (device.resolution g) ->
    1 <= iy (device.resolution g) ->
    1 <= iz (device.resolution g) ->
    geometry.voxel_at pol g box p = Some v ->
    in_grid (device.resolution g) v.
Proof.
  intros pol g box p v Hx Hy Hz; unfold geometry.voxel_at.
  destruct (geometry.axis_coord pol (x p) _ _ _) as [i|] eqn:Ei; [|discriminate].
  destruct (geometry.axis_coord pol (y p) _ _ _) as [j|] eqn:Ej; [|discriminate].
  destruct (geometry.axis_coord pol (z p) _ _ _) as [k|] eqn:Ek; [|discriminate].
  intros Hv; injection Hv as <-; unfold in_grid; cbn [ix iy iz].
  apply axis_coord_in_range in Ei; [|exact Hx].
  apply axis_coord_in_range in Ej; [|exact Hy].
  apply axis_coord_in_range in Ek; [|exact Hz].
  lia.
Qed.

(** A voxel of a valid level has its row-major offset inside a
    [[levels, nx, ny, nz]] array. *)
Lemma flat_index_in_range :
  forall (g : device.PackedMultiScaleGridSpec) (l : Z) (v : int3),
    0 <= l < device.levels g ->
    in_grid (device.resolution g) v ->
    0 <= geometry.flat_index g l v <
      device.levels g * ix (device.resolution g)
        * iy (device.resolution g) * iz (device.resolution g).
Proof.
  intros g l v Hl (Hx & Hy & Hz); unfold geometry.flat_index.
  set (L := device.levels g) in *.
  set (nx := ix (device.resolution g)) in *.
  set (ny := iy (device.resolution g)) in *.
  set (nz := iz (device.resolution g)) in *.
  assert (H1 : 0 <= l * nx + ix v <= L * nx - 1) by nia.
  assert (H2 : 0 <= (l * nx + ix v) * ny + iy v <= L * nx * ny - 1) by nia.
  nia.
Qed.

(** Evaluated in binary32, the coordinate formula can reach the
    resolution for a point strictly inside the box: the point
    [(1-2^-24, 1-2^-24, 1-2^-24)] is strictly inside
    [(-1,-1,-1), (1,1,1)], yet [point - level_min] rounds to 2, the
    quotient is 1, and the formula gives the coordinate 2 on a grid of
    resolution 2.  Rejecting reports "not occupied"; clamping reads the
    voxel (1,1,1). *)
Lemma voxel_coord_reaches_resolution :
  exists g box,
    device.new_PackedMultiScaleGridSpec examples.grid_small = Ok g /\
    device.AABBSpec_of_ptr (device.base_aabb g) = Some box /\
    geometry.strictly_inside examples.near_corner box = true /\
    ix (device.resolution g) = 2 /\
    geometry.voxel_coord (x examples.near_corner)
      (x (device.min box)) (x (device.max box)) (ix (device.resolution g))
    = Some 2 /\
    geometry.grid_occupied_at geometry.Reject g box 0 examples.near_corner
    = Some false /\
    geometry.voxel_at geometry.Clamp g box examples.near_corner
    = Some (make_int3 1 1 1) /\
    geometry.grid_occupied_at geometry.Clamp g box 0 examples.near_corner
    = Some true.
Proof.
  do 2 eexists; split; [reflexivity|]. split; [reflexivity|].
  repeat split; vm_compute; reflexivity.
Qed.

(** For a query at a level [0 <= l < levels] of a grid with resolution
    at least 1 on every axis and an [occupied] buffer of
    [levels * nx * ny * nz] flags, the modelled lookup always returns a
    flag, reports a point outside the level's box as "not occupied",
    reads the voxel of the raw coordinates when these lie within the
    resolution, and never reads a voxel outside the resolution. *)
Lemma occupancy_lookup_reads_in_grid :
  forall (pol : geometry.range_policy) (g : device.PackedMultiScaleGridSpec)
         (box : device.AABBSpec) (l : Z) (p : float3) (buf : span bool),
    0 <= l < device.levels g ->
    1 <= ix (device.resolution g) ->
    1 <= iy (device.resolution g) ->
    1 <= iz (device.resolution g) ->
    device.occupied g = Some buf ->
    span_len buf = device.levels g * ix (device.resolution g)
                   * iy (device.resolution g) * iz (device.resolution g) ->
    (exists b, geometry.grid_occupied_at pol g box l p = Some b) /\
    (geometry.outside p box = true ->
     geometry.grid_occupied_at pol g box l p = Some false) /\
    (forall i j k,
        geometry.voxel_coord (x p) (x (device.min box)) (x (device.max box))
          (ix (device.resolution g)) = Some i ->
        geometry.voxel_coord (y p) (y (device.min box)) (y (device.max box))
          (iy (device.resolution g)) = Some j ->
        geometry.voxel_coord (z p) (z (device.min box)) (z (device.max box))
          (iz (device.resolution g)) = Some k ->
        in_grid (device.resolution g) (make_int3 i j k) ->
        geometry.voxel_at pol g box p = Some (make_int3 i j k)) /\
    (forall v,
        geometry.voxel_at pol g box p = Some v ->
        in_grid (device.resolution g) v /\
        (geometry.outside p box = false ->
         geometry.grid_occupied_at pol g box l p
         = Some (span_at buf (geometry.flat_index g l v)))).
Proof.
  intros pol g box l p buf Hl Hx Hy Hz Hbuf Hlen.
  assert (Hread : forall v,
             geometry.voxel_at pol g box p = Some v ->
             in_grid (device.resolution g) v /\
             index (device.occupied g) (geometry.flat_index g l v)
             = Some (span_at buf (geometry.flat_index g l v))).
  { intros v Hv.
    assert (Hin : in_grid (device.resolution g) v)
      by (eapply voxel_at_in_grid; eassumption).
    split; [exact Hin|].
    rewrite Hbuf; apply index_in_range.
    rewrite Hlen; now apply flat_index_in_range. }
  split; [|split; [|split]].
  - unfold geometry.grid_occupied_at.
    destruct (geometry.outside p box); [eexists; reflexivity|].
    destruct (geometry.voxel_at pol g box p) as [v|] eqn:Ev;
      [|eexists; reflexivity].
    destruct (Hread v eq_refl) as [_ ->]; eexists; reflexivity.
  - intros Hout; unfold geometry.grid_occupied_at; now rewrite Hout.
  - intros i j k Hi Hj Hk (Hri & Hrj & Hrk); cbn [ix iy iz] in *.
    unfold geometry.voxel_at, geometry.axis_coord.
    rewrite Hi, Hj, Hk, !settle_id by assumption. reflexivity.
  - intros v Hv; destruct (Hread v Hv) as [Hin Hidx].
    split; [exact Hin|].
    intros Hout; unfold geometry.grid_occupied_at.
    now rewrite Hout, Hv.
Qed.

(** The centre of the unit box falls in the occupied voxel (1,1,1). *)
Lemma centre_is_occupied :
  exists g box,
    device.new_PackedMultiScaleGridSpec examples.grid_small = Ok g /\
    device.AABBSpec_of_ptr (device.base_aabb g) = Some box /\
    geometry.strictly_inside examples.centre box = true /\
    geometry.voxel_at geometry.Reject g box examples.centre
    = Some (make_int3 1 1 1) /\
    geometry.grid_occupied_at geometry.Reject g box 0 examples.centre
    = Some true.
Proof.
  do 2 eexists; split; [reflexivity|]. split; [reflexivity|].
  repeat split; vm_compute; reflexivity.
Qed.

(* ================================================================== *)
(** * Further properties of the views *)

(** ** Reading through a pointer *)

Lemma index_some_inv :
  forall (A : Type) (p : ptr A) (k : Z) (a : A),
    index p k = Some a ->
    exists b, p = Some b /\ 0 <= k < span_len b /\ a = span_at b k.
Proof.
  intros A [b|] k a; unfold index; [|discriminate].
  destruct (Z.leb_spec 0 k), (Z.ltb_spec k (span_len b)); cbn [andb];
    try discriminate.
  intros Ha; injection Ha as <-. exists b; repeat split; assumption.
Qed.

Lemma index_out_of_range :
  forall (A : Type) (b : span A) (k : Z),
    k < 0 \/ span_len b <= k -> index (Some b) k = None.
Proof.
  intros A b k Hk; unfold index.
  destruct (Z.leb_spec 0 k), (Z.ltb_spec k (span_len b)); cbn [andb];
    try reflexivity; lia.
Qed.

Lemma index_defined_iff :
  forall (A : Type) (b : span A) (k : Z),
    (exists a, index (Some b) k = Some a) <-> 0 <= k < span_len b.
Proof.
  intros A b k; split.
  - intros [a Ha]. apply index_some_inv in Ha.
    destruct Ha as (b' & Hb & Hk & _). now injection Hb as <-.
  - intros Hk; eexists; now apply index_in_range.
Qed.

(** Shape invariant of the tensors built by [tensor_of]. *)
Lemma tensor_of_wf :
  forall (A : Type) (shape : list Z) (f : Z -> A),
    Forall (fun n => 0 <= n <= INT64_MAX) shape ->
    torch.prod_sizes shape <= INT64_MAX ->
    torch.wf_impl (torch.mk_tensor shape (mk_span (torch.prod_sizes shape) f)).
Proof. intros A shape f Hs Hp; repeat split; assumption. Qed.

Lemma wf_rows3 :
  forall (n : Z) (f : Z -> f32.float),
    0 <= n -> 3 * n <= INT64_MAX ->
    torch.wf_impl
      (torch.mk_tensor [n; 3] (mk_span (torch.prod_sizes [n; 3]) f)).
Proof.
  intros n f Hn Hmax; apply tensor_of_wf.
  - repeat (apply Forall_cons; [unfold INT64_MAX in *; lia|]).
    apply Forall_nil.
  - unfold torch.prod_sizes; cbn [fold_right]; lia.
Qed.

(** ** Rays view: construction *)

(** The rays constructor returns the two data pointers and the first
    extent of [origins]. *)
Lemma new_PackedRaysSpec_inv :
  forall (s : spec.RaysSpec) (o d : torch.TensorImpl f32.float) (N : Z)
         (ns : list Z) (rays : device.PackedRaysSpec),
    spec.origins s = Some o -> spec.dirs s = Some d ->
    torch.sizes o = N :: ns ->
    device.new_PackedRaysSpec s = Ok rays ->
    rays = {| device.origins := Some (torch.storage o);
              device.dirs := Some (torch.storage d);
              device.N := to_int32 N |}.
Proof.
  intros s o d N ns rays Ho Hd Hs; unfold device.new_PackedRaysSpec.
  rewrite Ho, Hd; cbn [torch.data_ptr bind].
  rewrite size_first, Hs; cbn [bind].
  intros H; now injection H as <-.
Qed.

Lemma i32_elem_plain :
  forall id c : Z,
    fits_int32 (3 * id) -> fits_int32 (3 * id + 2) -> 0 <= c <= 2 ->
    i32.mul id 3 = 3 * id /\ i32.add (3 * id) c = 3 * id + c.
Proof.
  intros id c H0 H2 Hc; unfold i32.mul, i32.add, fits_int32 in *; split.
  - rewrite to_int32_small; unfold fits_int32; lia.
  - rewrite to_int32_small; unfold fits_int32; lia.
Qed.

Lemma i64_elem_plain :
  forall id c : Z,
    fits_int32 (3 * id) -> fits_int32 (3 * id + 2) -> 0 <= c <= 2 ->
    i64.mul id 3 = 3 * id /\ i64.add (3 * id) c = 3 * id + c.
Proof.
  intros id c H0 H2 Hc;
    unfold i64.mul, i64.add, fits_int32, INT32_MAX in *; split.
  - rewrite to_int64_small; unfold fits_int64, INT64_MAX; lia.
  - rewrite to_int64_small; unfold fits_int64, INT64_MAX; lia.
Qed.

(** [single_ray_view0] at the second of two rays. *)
Lemma X1_witness :
  exists rays r,
    device0.new_PackedRaysSpec inputs.two_rays = Ok rays /\
    device0.new_SingleRaySpec rays 1 (f32.of_Z 0) (f32.of_Z 10) = Some r /\
    device0.origin r = make_float3 f32.one f32.one f32.one /\
    y (device0.dir r) = f32.of_Z (-2).
Proof.
  destruct (@single_ray_view0
              inputs.two_rays _ _ 2 1 (f32.of_Z 0) (f32.of_Z 10)
              eq_refl eq_refl eq_refl
              (@wf_rows3 2 _ ltac:(lia) ltac:(unfold INT64_MAX; lia))
              eq_refl
              (@wf_rows3 2 _ ltac:(lia) ltac:(unfold INT64_MAX; lia))
              ltac:(lia))
    as (rays & r & Hrays & Hr & Ho & Hd & _).
  exists rays, r.
  split; [exact Hrays|]. split; [exact Hr|].
  split; [rewrite Ho; reflexivity | rewrite Hd; reflexivity].
Defined.

(** ** Per-ray view: bounds *)

(** X2.  Current revision: for a rays buffer of [N] rays and an index
    whose element indices [3 id .. 3 id + 2] do not leave the 32-bit
    range, the per-ray view is defined exactly for [0 <= id < N]; a
    negative index or an index past the last ray reads outside the
    buffers. *)
Theorem X2_single_ray_defined_iff :
  forall (s : spec.RaysSpec) (o d : torch.TensorImpl f32.float) (N id : Z)
         (rays : device.PackedRaysSpec) (t0 t1 : f32.float),
    spec.origins s = Some o ->
    spec.dirs s = Some d ->
    torch.sizes o = [N; 3] -> torch.wf_impl o ->
    torch.sizes d = [N; 3] -> torch.wf_impl d ->
    device.new_PackedRaysSpec s = Ok rays ->
    fits_int32 (3 * id) -> fits_int32 (3 * id + 2) ->
    ((exists r, device.new_SingleRaySpec rays id t0 t1 = Some r) <->
     0 <= id < N).
Proof.
  intros s o d N id rays t0 t1 Ho Hd Hso Hwo Hsd Hwd Hrays H0 H2.
  destruct (rows3_len Hso Hwo) as [Hlo _].
  destruct (rows3_len Hsd Hwd) as [Hld _].
  apply new_PackedRaysSpec_inv with (o := o) (d := d) (N := N) (ns := [3])
    in Hrays; try assumption; subst rays.
  unfold device.new_SingleRaySpec; cbn [device.origins device.dirs].
  destruct (@i32_elem_plain id 1 H0 H2 ltac:(lia)) as [-> ->].
  destruct (@i32_elem_plain id 2 H0 H2 ltac:(lia)) as [_ ->].
  split.
  - intros [r Hr].
    destruct (index (Some (torch.storage o)) (3 * id)) as [a|] eqn:E;
      [|discriminate].
    apply index_some_inv in E. destruct E as (b & Hb & Hk & _).
    injection Hb as <-. lia.
  - intros Hid. rewrite !index_in_range by lia. eexists; reflexivity.
Qed.

Lemma X2_witness :
  exists rays,
    device.new_PackedRaysSpec inputs.two_rays = Ok rays /\
    (exists r, device.new_SingleRaySpec rays 1 f32.zero f32.one = Some r) /\
    device.new_SingleRaySpec rays 2 f32.zero f32.one = None /\
    device.new_SingleRaySpec rays (-1) f32.zero f32.one = None.
Proof.
  eexists; split; [reflexivity|].
  split; [|split; reflexivity].
  apply (@X2_single_ray_defined_iff
           inputs.two_rays _ _ 2 1 _ f32.zero f32.one
           eq_refl eq_refl eq_refl
           (@wf_rows3 2 _ ltac:(lia) ltac:(unfold INT64_MAX; lia))
           eq_refl
           (@wf_rows3 2 _ ltac:(lia) ltac:(unfold INT64_MAX; lia))
           eq_refl);
    unfold fits_int32, INT32_MAX; lia.
Defined.

(** X3.  The rays constructor takes [N] from [origins] and never looks
    at the shape of [dirs]: when [dirs] holds fewer rays than [origins],
    the view is still constructed, and the per-ray view of an index that
    [origins] covers but [dirs] does not is undefined (a read past the
    end of [dirs]). *)
Theorem X3_short_dirs_unchecked :
  forall (s : spec.RaysSpec) (o d : torch.TensorImpl f32.float) (N M id : Z)
         (t0 t1 : f32.float),
    spec.origins s = Some o ->
    spec.dirs s = Some d ->
    torch.sizes o = [N; 3] -> torch.wf_impl o ->
    torch.sizes d = [M; 3] -> torch.wf_impl d ->
    0 <= M <= id -> id < N -> N <= INT32_MAX ->
    3 * id + 2 <= INT32_MAX ->
    exists rays,
      device.new_PackedRaysSpec s = Ok rays /\
      device.N rays = N /\
      device.new_SingleRaySpec rays id t0 t1 = None.
Proof.
  intros s o d N M id t0 t1 Ho Hd Hso Hwo Hsd Hwd HM HN HNmax Hmax.
  destruct (rows3_len Hso Hwo) as [Hlo _].
  destruct (rows3_len Hsd Hwd) as [Hld _].
  unfold device.new_PackedRaysSpec.
  rewrite Ho, Hd; cbn [torch.data_ptr bind].
  rewrite size_first, Hso; cbn [bind].
  eexists; split; [reflexivity|]; cbn [device.N].
  split; [apply to_int32_nonneg; lia|].
  unfold device.new_SingleRaySpec; cbn [device.origins device.dirs].
  rewrite i32_mul3 by lia. rewrite !i32_add_small by lia.
  rewrite !index_in_range by lia.
  rewrite (index_out_of_range (torch.storage d) (k := 3 * id)) by lia.
  reflexivity.
Qed.

Lemma X3_witness :
  exists rays,
    device.new_PackedRaysSpec inputs.short_dirs = Ok rays /\
    device.N rays = 2 /\
    device.new_SingleRaySpec rays 1 f32.zero f32.one = None.
Proof.
  apply (@X3_short_dirs_unchecked
           inputs.short_dirs _ _ 2 1 1 f32.zero f32.one
           eq_refl eq_refl eq_refl
           (@wf_rows3 2 _ ltac:(lia) ltac:(unfold INT64_MAX; lia))
           eq_refl
           (@wf_rows3 1 _ ltac:(lia) ltac:(unfold INT64_MAX; lia)));
    unfold INT32_MAX; lia.
Defined.

(** X4.  The two revisions of the per-ray constructor agree on every
    index whose element indices stay in the 32-bit range: over the same
    two buffers they are both undefined or build the same origin, dir,
    inv_dir, tmin and tmax, whatever [N] the rays views hold. *)
Theorem X4_single_ray_revisions_agree :
  forall (po pd : ptr f32.float) (n n0 id : Z) (t0 t1 : f32.float),
    fits_int32 (3 * id) -> fits_int32 (3 * id + 2) ->
    device0.new_SingleRaySpec
      {| device0.origins := po; device0.dirs := pd; device0.N := n0 |}
      id t0 t1
    = option_map ray0_of
        (device.new_SingleRaySpec
           {| device.origins := po; device.dirs := pd; device.N := n |}
           id t0 t1).
Proof.
  intros po pd n n0 id t0 t1 H0 H2.
  unfold device0.new_SingleRaySpec, device.new_SingleRaySpec.
  cbn [device.origins device.dirs device0.origins device0.dirs].
  destruct (@i32_elem_plain id 1 H0 H2 ltac:(lia)) as [-> ->].
  destruct (@i32_elem_plain id 2 H0 H2 ltac:(lia)) as [_ ->].
  destruct (@i64_elem_plain id 1 H0 H2 ltac:(lia)) as [-> ->].
  destruct (@i64_elem_plain id 2 H0 H2 ltac:(lia)) as [_ ->].
  destruct (index po (3 * id)), (index po (3 * id + 1)),
           (index po (3 * id + 2)), (index pd (3 * id)),
           (index pd (3 * id + 1)), (index pd (3 * id + 2)); reflexivity.
Qed.

Lemma X4_witness :
  fits_int32 (3 * 1) /\ fits_int32 (3 * 1 + 2) /\
  forall po pd : ptr f32.float,
    device0.new_SingleRaySpec
      {| device0.origins := po; device0.dirs := pd; device0.N := 2 |}
      1 f32.zero f32.one
    = option_map ray0_of
        (device.new_SingleRaySpec
           {| device.origins := po; device.dirs := pd; device.N := 2 |}
           1 f32.zero f32.one).
Proof.
  assert (H0 : fits_int32 (3 * 1)) by (unfold fits_int32, INT32_MAX; lia).
  assert (H2 : fits_int32 (3 * 1 + 2)) by (unfold fits_int32, INT32_MAX; lia).
  split; [exact H0|]. split; [exact H2|].
  intros po pd.
  exact (X4_single_ray_revisions_agree po pd 2 2 1 f32.zero f32.one H0 H2).
Defined.

Unset Implicit Arguments.

(** ** Per-ray view: the reciprocal direction *)

Lemma shr_1_nonneg : forall mrs, 0 <= shr_m mrs -> 0 <= shr_m (shr_1 mrs).
Proof.
  intros [m r s] H.
  destruct m as [|[p|p|]|[p|p|]]; cbn in *; lia.
Qed.

Lemma iter_shr_1_nonneg :
  forall p mrs, 0 <= shr_m mrs -> 0 <= shr_m (iter_pos shr_1 p mrs).
Proof.
  induction p as [p IH|p IH|]; intros mrs H; cbn.
  - apply IH, IH, shr_1_nonneg, H.
  - apply IH, IH, H.
  - apply shr_1_nonneg, H.
Qed.

Lemma shr_fexp_nonneg :
  forall prec emax m e l,
    0 <= m -> 0 <= shr_m (fst (shr_fexp prec emax m e l)).
Proof.
  intros prec emax m e l Hm; unfold shr_fexp, shr.
  assert (H0 : 0 <= shr_m (shr_record_of_loc m l))
    by (destruct l as [|[| |]]; exact Hm).
  destruct (fexp prec emax (Zdigits2 m + e) - e); cbn [fst]; try exact H0.
  now apply iter_shr_1_nonneg.
Qed.

Lemma round_nearest_even_nonneg :
  forall m l, 0 <= m -> 0 <= round_nearest_even m l.
Proof.
  intros m l Hm; unfold round_nearest_even.
  destruct l as [|[| |]]; try lia. destruct (Z.even m); lia.
Qed.

(** Rounding a non-negative mantissa never produces a NaN and keeps the
    sign it is given. *)
Lemma binary_round_aux_sign :
  forall prec emax s m e l,
    0 <= m -> sign_bit (binary_round_aux prec emax s m e l) = Some s.
Proof.
  intros prec emax s m e l Hm; unfold binary_round_aux.
  pose proof (shr_fexp_nonneg prec emax m e l Hm) as H1.
  destruct (shr_fexp prec emax m e l) as [mrs' e']; cbn [fst] in H1.
  pose proof (shr_fexp_nonneg prec emax
                (round_nearest_even (shr_m mrs') (loc_of_shr_record mrs'))
                e' loc_Exact (round_nearest_even_nonneg _ _ H1)) as H2.
  destruct (shr_fexp prec emax _ e' loc_Exact) as [mrs'' e''];
    cbn [fst] in H2.
  destruct (shr_m mrs'') as [|p|p]; try lia; try reflexivity.
  destruct (e'' <=? emax - prec); reflexivity.
Qed.

Lemma SFdiv_core_nonneg :
  forall prec emax m1 e1 m2 e2,
    0 <= fst (fst (SFdiv_core_binary prec emax (Z.pos m1) e1 (Z.pos m2) e2)).
Proof.
  intros; unfold SFdiv_core_binary.
  set (s := _ - _ - _).
  set (m' := match s with Z.pos _ => _ | Z0 => _ | Z.neg _ => _ end).
  assert (Hm' : 0 <= m').
  { subst m'; destruct s; try lia. apply Z.shiftl_nonneg; lia. }
  pose proof (Z.div_pos m' (Z.pos m2) Hm' ltac:(lia)) as Hq.
  unfold Z.div in Hq.
  destruct (Z.div_eucl m' (Z.pos m2)) as [q r]; cbn [fst] in *. exact Hq.
Qed.

(** [1.0f / d] is a NaN only for a NaN [d], and otherwise has the sign
    of [d]. *)
Lemma div_one_sign :
  forall d : f32.float, sign_bit (f32.div f32.one d) = sign_bit d.
Proof.
  intros [s|s| |s m e]; try reflexivity.
  unfold f32.div, f32.one, f32.of_Z.
  change (binary_normalize f32.prec f32.emax 1 0 false)
    with (S754_finite false 8388608 (-23)).
  unfold SFdiv.
  pose proof (SFdiv_core_nonneg f32.prec f32.emax 8388608 (-23) m e) as H.
  destruct (SFdiv_core_binary f32.prec f32.emax 8388608 (-23) (Z.pos m) e)
    as [[mz ez] lz]; cbn [fst] in H.
  now rewrite binary_round_aux_sign.
Qed.

Lemma div_one_inf :
  forall sgn : bool, f32.div f32.one (S754_infinity sgn) = S754_zero sgn.
Proof. intros [|]; reflexivity. Qed.

(** X5.  In every per-ray view the constructor builds, each [inv_dir]
    component is a NaN exactly when the [dir] component is a NaN, and
    otherwise carries the sign of the [dir] component (whatever its
    magnitude: zero, subnormal, normal or infinite); an infinite [dir]
    component gives a zero [inv_dir] component of the same sign. *)
Theorem X5_inv_dir_sign :
  forall (rays : device.PackedRaysSpec) (id : Z) (t0 t1 : f32.float)
         (r : device.SingleRaySpec),
    device.new_SingleRaySpec rays id t0 t1 = Some r ->
    sign_bit (x (device.inv_dir r)) = sign_bit (x (device.dir r)) /\
    sign_bit (y (device.inv_dir r)) = sign_bit (y (device.dir r)) /\
    sign_bit (z (device.inv_dir r)) = sign_bit (z (device.dir r)) /\
    (forall sgn, x (device.dir r) = S754_infinity sgn ->
                 x (device.inv_dir r) = S754_zero sgn) /\
    (forall sgn, y (device.dir r) = S754_infinity sgn ->
                 y (device.inv_dir r) = S754_zero sgn) /\
    (forall sgn, z (device.dir r) = S754_infinity sgn ->
                 z (device.inv_dir r) = S754_zero sgn).
Proof.
  intros rays id t0 t1 r; unfold device.new_SingleRaySpec.
  destruct (index (device.origins rays) _) as [ox|]; [|discriminate].
  destruct (index (device.origins rays) _) as [oy|]; [|discriminate].
  destruct (index (device.origins rays) _) as [oz|]; [|discriminate].
  destruct (index (device.dirs rays) _) as [dx|]; [|discriminate].
  destruct (index (device.dirs rays) _) as [dy|]; [|discriminate].
  destruct (index (device.dirs rays) _) as [dz|]; [|discriminate].
  intros H; injection H as <-.
  cbn [device.inv_dir device.dir x y z].
  repeat split; try apply div_one_sign; intros sgn ->; apply div_one_inf.
Qed.

Lemma X5_witness :
  exists rays r,
    device.new_PackedRaysSpec inputs.two_rays = Ok rays /\
    device.new_SingleRaySpec rays 1 f32.zero f32.one = Some r /\
    y (device.dir r) = f32.of_Z (-2) /\
    sign_bit (y (device.inv_dir r)) = Some true /\
    sign_bit (x (device.inv_dir r)) = Some false.
Proof.
  do 2 eexists; split; [reflexivity|].
  split; [reflexivity|]. split; [reflexivity|].
  match goal with
  | |- context [device.inv_dir ?r] =>
      destruct (X5_inv_dir_sign
                  {| device.origins :=
                       opt_ptr (spec.origins inputs.two_rays);
                     device.dirs := opt_ptr (spec.dirs inputs.two_rays);
                     device.N := 2 |}
                  1 f32.zero f32.one r eq_refl)
        as (Hx & Hy & _)
  end.
  split; [rewrite Hy | rewrite Hx]; reflexivity.
Defined.

(** ** Grid view: construction outcomes *)

(** The grid constructor in closed form. *)
Lemma new_PackedMultiScaleGridSpec_eq :
  forall s : spec.MultiScaleGridSpec,
    device.new_PackedMultiScaleGridSpec s =
    match spec.data s, spec.occupied s, spec.base_aabb s with
    | Some d, Some o, Some b =>
        match torch.sizes d with
        | L :: nx :: ny :: nz :: _ =>
            Ok {| device.data := Some (torch.storage d);
                  device.occupied := Some (torch.storage o);
                  device.base_aabb := Some (torch.storage b);
                  device.levels := to_int32 L;
                  device.resolution :=
                    make_int3 (to_int32 nx) (to_int32 ny) (to_int32 nz) |}
        | _ => Throw DimOutOfRange
        end
    | _, _, _ => Throw UndefinedTensor
    end.
Proof.
  intros [[d|] [o|] [b|]]; unfold device.new_PackedMultiScaleGridSpec;
    cbn [spec.data spec.occupied spec.base_aabb torch.data_ptr bind];
    try reflexivity.
  destruct (torch.sizes d) as [|L [|nx [|ny [|nz rest]]]] eqn:E;
    try (unfold torch.size; rewrite E; reflexivity).
  rewrite !size_at by (unfold rank; rewrite E; cbn [length]; lia).
  rewrite E; reflexivity.
Qed.

(** X6.  Outcomes of the grid constructor.  It succeeds exactly when
    the three tensors are defined and [data] has at least four
    dimensions, and the view then holds the three data pointers and the
    first four extents of [data] narrowed to 32 bits (further dimensions
    of [data], and the shapes of [occupied] and [base_aabb], are never
    looked at).  It throws for an undefined tensor exactly when one of
    the three is undefined, and for a missing dimension exactly when all
    three are defined and [data] has fewer than four dimensions. *)
Theorem X6_grid_constructor_outcomes :
  forall s : spec.MultiScaleGridSpec,
    match device.new_PackedMultiScaleGridSpec s with
    | Ok g =>
        exists d o b L nx ny nz rest,
          spec.data s = Some d /\ spec.occupied s = Some o /\
          spec.base_aabb s = Some b /\
          torch.sizes d = L :: nx :: ny :: nz :: rest /\
          device.data g = Some (torch.storage d) /\
          device.occupied g = Some (torch.storage o) /\
          device.base_aabb g = Some (torch.storage b) /\
          device.levels g = to_int32 L /\
          device.resolution g =
            make_int3 (to_int32 nx) (to_int32 ny) (to_int32 nz)
    | Throw UndefinedTensor =>
        spec.data s = None \/ spec.occupied s = None \/
        spec.base_aabb s = None
    | Throw DimOutOfRange =>
        exists d o b,
          spec.data s = Some d /\ spec.occupied s = Some o /\
          spec.base_aabb s = Some b /\ rank d < 4
    end.
Proof.
  intros s; rewrite new_PackedMultiScaleGridSpec_eq.
  destruct (spec.data s) as [d|]; [|left; reflexivity].
  destruct (spec.occupied s) as [o|]; [|right; left; reflexivity].
  destruct (spec.base_aabb s) as [b|]; [|right; right; reflexivity].
  destruct (torch.sizes d) as [|L [|nx [|ny [|nz rest]]]] eqn:E;
    try (exists d, o, b; split; [reflexivity|]; split; [reflexivity|];
         split; [reflexivity|]; unfold rank; rewrite E; cbn [length]; lia).
  exists d, o, b, L, nx, ny, nz, rest.
  split; [reflexivity|]. split; [reflexivity|]. split; [reflexivity|].
  split; [exact E|]. repeat split.
Qed.

(** X7.  The two revisions of the grid constructor agree on every
    input: over the same three tensors (the occupancy tensor is called
    [binary] in the earlier one) they throw the same error or build the
    same view. *)
Theorem X7_grid_revisions_agree :
  forall (d : torch.Tensor f32.float) (o : torch.Tensor bool)
         (b : torch.Tensor f32.float),
    device0.new_PackedMultiScaleGridSpec (spec0.mk_MultiScaleGridSpec d o b)
    = (g <- device.new_PackedMultiScaleGridSpec
              (spec.mk_MultiScaleGridSpec d o b) ;;
       Ok (grid0_of g)).
Proof.
  intros d o b.
  unfold device0.new_PackedMultiScaleGridSpec,
         device.new_PackedMultiScaleGridSpec.
  cbn [spec.data spec.occupied spec.base_aabb
       spec0.data spec0.binary spec0.base_aabb].
  destruct (torch.data_ptr d); [|reflexivity].
  destruct (torch.data_ptr o); [|reflexivity].
  destruct (torch.data_ptr b); [|reflexivity].
  cbn [bind].
  destruct (torch.size d 0); [|reflexivity].
  destruct (torch.size d 1); [|reflexivity].
  destruct (torch.size d 2); [|reflexivity].
  destruct (torch.size d 3); reflexivity.
Qed.

(** X8.  [AABBSpec(float *aabb)] is defined exactly when the pointer is
    not null and its buffer holds at least six elements; it is then the
    box whose corners are elements 0..2 and 3..5, the same box the
    two-corner constructor builds from them, and later elements are
    ignored. *)
Theorem X8_aabb_of_ptr_outcome :
  forall p : ptr f32.float,
    device.AABBSpec_of_ptr p =
    match p with
    | Some b => if 6 <=? span_len b then Some (box_of_span b) else None
    | None => None
    end.
Proof.
  intros [b|]; [|reflexivity]. unfold device.AABBSpec_of_ptr.
  destruct (Z.leb_spec 6 (span_len b)) as [H|H].
  - rewrite !index_in_range by lia. reflexivity.
  - rewrite (@index_out_of_range _ b 5) by lia.
    destruct (index (Some b) 0), (index (Some b) 1), (index (Some b) 2),
             (index (Some b) 3), (index (Some b) 4); reflexivity.
Qed.

(** X9.  The buffers behind a grid view can be indexed exactly on the
    range its counts describe: for [data] and [occupied] tensors of
    shape [[L; nx; ny; nz]] with extents that fit 32 bits, reading
    element [k] of [data] or of [occupied] through the view is defined
    if and only if [0 <= k < levels * nx * ny * nz], computed from the
    view's own [levels] and [resolution]. *)
Theorem X9_grid_buffers_indexable :
  forall (s : spec.MultiScaleGridSpec)
         (d : torch.TensorImpl f32.float) (o : torch.TensorImpl bool)
         (L nx ny nz : Z) (g : device.PackedMultiScaleGridSpec) (k : Z),
    spec.data s = Some d -> spec.occupied s = Some o ->
    torch.sizes d = [L; nx; ny; nz] -> torch.wf_impl d ->
    torch.sizes o = [L; nx; ny; nz] -> torch.wf_impl o ->
    0 <= L <= INT32_MAX -> 0 <= nx <= INT32_MAX ->
    0 <= ny <= INT32_MAX -> 0 <= nz <= INT32_MAX ->
    device.new_PackedMultiScaleGridSpec s = Ok g ->
    let n := device.levels g * ix (device.resolution g)
             * iy (device.resolution g) * iz (device.resolution g) in
    ((exists a, index (device.data g) k = Some a) <-> 0 <= k < n) /\
    ((exists a, index (device.occupied g) k = Some a) <-> 0 <= k < n).
Proof.
  intros s d o L nx ny nz g k Hd Ho Hsd (_ & _ & Hld) Hso (_ & _ & Hlo)
         HL Hx Hy Hz Hg.
  rewrite new_PackedMultiScaleGridSpec_eq, Hd, Ho in Hg.
  destruct (spec.base_aabb s) as [b|]; [|discriminate].
  rewrite Hsd in Hg; injection Hg as <-.
  cbn [device.levels device.resolution device.data device.occupied ix iy iz].
  rewrite !to_int32_nonneg by assumption.
  rewrite Hsd in Hld; rewrite Hso in Hlo.
  unfold torch.prod_sizes in Hld, Hlo; cbn [fold_right] in Hld, Hlo.
  rewrite !index_defined_iff, Hld, Hlo.
  replace (L * (nx * (ny * (nz * 1)))) with (L * nx * ny * nz) by ring.
  split; reflexivity.
Qed.

Lemma X9_witness :
  exists g,
    device.new_PackedMultiScaleGridSpec examples.grid_small = Ok g /\
    (exists a, index (device.occupied g) 7 = Some a) /\
    index (device.occupied g) 8 = None.
Proof.
  eexists; split; [reflexivity|]. split; [|reflexivity].
  refine (proj2 (proj2 (X9_grid_buffers_indexable
                   examples.grid_small _ _ 1 2 2 2 _ 7
                   eq_refl eq_refl eq_refl _ eq_refl _ _ _ _ _ eq_refl)) _);
    try (unfold INT32_MAX; lia);
    try (apply tensor_of_wf;
         [repeat (apply Forall_cons; [unfold INT64_MAX; lia|]);
          apply Forall_nil
         | cbn; unfold INT64_MAX; lia]).
  split; [vm_compute; discriminate | reflexivity].
Defined.

(** ** Segments view: construction outcomes *)

Lemma has_rank_false :
  forall (A : Type) (t : torch.Tensor A),
    has_rank t = false -> exists i, t = Some i /\ torch.sizes i = [].
Proof.
  intros A [i|]; cbn; [|discriminate].
  destruct (torch.sizes i) eqn:E; [|discriminate].
  intros _; exists i; split; [reflexivity | exact E].
Qed.

(** X10.  Outcomes of the current segments constructor.  It never
    throws for an undefined tensor: each of the six tensors may be
    absent.  Its only failure is a missing dimension, raised exactly when
    the edges tensor or the [chunk_cnts] tensor is defined with no
    dimension at all. *)
Theorem X10_segments_constructor_outcomes :
  forall s : spec.RaySegmentsSpec,
    match device.new_PackedRaySegmentsSpec s with
    | Ok v => has_rank (spec.edges s) = true /\
              has_rank (spec.chunk_cnts s) = true
    | Throw UndefinedTensor => False
    | Throw DimOutOfRange =>
        (exists e, spec.edges s = Some e /\ torch.sizes e = []) \/
        (exists c, spec.chunk_cnts s = Some c /\ torch.sizes c = [])
    end.
Proof.
  intros s; rewrite new_PackedRaySegmentsSpec_eq; unfold constructible.
  destruct (has_rank (spec.edges s)) eqn:He.
  - destruct (has_rank (spec.chunk_cnts s)) eqn:Hc; cbn [andb].
    + split; reflexivity.
    + right; now apply has_rank_false.
  - cbn [andb]; left; now apply has_rank_false.
Qed.

(** X11.  Outcomes of the earlier segments constructor.  It throws for
    an undefined tensor exactly when [chunk_cnts] is absent, and for a
    missing dimension exactly when [chunk_cnts] is defined with no
    dimension; in every other case it succeeds, whatever the edges
    tensor is (absent, or of any rank), with [n_rays] the first extent
    of [chunk_cnts]. *)
Theorem X11_segments_constructor0_outcomes :
  forall s : spec.RaySegmentsSpec,
    match device0.new_PackedRaySegmentsSpec s with
    | Ok v0 =>
        exists c n ns,
          spec.chunk_cnts s = Some c /\ torch.sizes c = n :: ns /\
          device0.n_rays v0 = n /\
          device0.chunk_cnts v0 = Some (torch.storage c)
    | Throw UndefinedTensor => spec.chunk_cnts s = None
    | Throw DimOutOfRange =>
        exists c, spec.chunk_cnts s = Some c /\ torch.sizes c = []
    end.
Proof.
  intros s; rewrite new_PackedRaySegmentsSpec0_eq.
  destruct (spec.chunk_cnts s) as [c|] eqn:Hc; [|reflexivity].
  destruct (torch.sizes c) as [|n ns] eqn:E.
  - exists c; split; [reflexivity | exact E].
  - exists c, n, ns. unfold segments_view0.
    cbn [device0.n_rays device0.chunk_cnts]. rewrite Hc.
    repeat split. exact E.
Qed.

(** X12.  The current segments constructor against the earlier one, on
    everything the earlier one accepts.  Whenever the earlier
    constructor returns a view: if the edges tensor is absent or has at
    least one dimension, the current constructor returns a view with the
    same six pointers, the same [n_edges] and the earlier [n_rays]
    narrowed to 32 bits; if the edges tensor is a 0-dimensional scalar,
    the earlier view counts one edge and the current constructor
    throws. *)
Theorem X12_segments_revisions :
  forall (s : spec.RaySegmentsSpec) (v0 : device0.PackedRaySegmentsSpec),
    device0.new_PackedRaySegmentsSpec s = Ok v0 ->
    (has_rank (spec.edges s) = true ->
     exists v,
       device.new_PackedRaySegmentsSpec s = Ok v /\
       device.edges v = device0.edges v0 /\
       device.is_left v = device0.is_left v0 /\
       device.is_right v = device0.is_right v0 /\
       device.chunk_starts v = device0.chunk_starts v0 /\
       device.chunk_cnts v = device0.chunk_cnts v0 /\
       device.ray_ids v = device0.ray_ids v0 /\
       device.n_edges v = device0.n_edges v0 /\
       device.n_rays v = to_int32 (device0.n_rays v0)) /\
    (has_rank (spec.edges s) = false ->
     device.new_PackedRaySegmentsSpec s = Throw DimOutOfRange /\
     device0.n_edges v0 = 1).
Proof.
  intros s v0 H0.
  rewrite new_PackedRaySegmentsSpec0_eq in H0.
  destruct (spec.chunk_cnts s) as [c|] eqn:Hc; [|discriminate].
  destruct (torch.sizes c) as [|n ns] eqn:E; [discriminate|].
  injection H0 as <-.
  rewrite new_PackedRaySegmentsSpec_eq; unfold constructible.
  rewrite Hc; cbn [has_rank]; rewrite E.
  split; intros He; rewrite He; cbn [andb].
  - eexists; split; [reflexivity|].
    unfold segments_view, segments_view0;
      cbn [device.edges device.is_left device.is_right device.chunk_starts
           device.chunk_cnts device.ray_ids device.n_edges device.n_rays
           device0.edges device0.is_left device0.is_right
           device0.chunk_starts device0.chunk_cnts device0.ray_ids
           device0.n_edges device0.n_rays].
    rewrite Hc, E. repeat split.
  - split; [reflexivity|].
    apply has_rank_false in He. destruct He as (e & He & Hs).
    unfold segments_view0; cbn [device0.n_edges].
    rewrite He, Hs. reflexivity.
Qed.

Lemma X12_witness :
  (exists v0 v,
      device0.new_PackedRaySegmentsSpec examples.flat_full = Ok v0 /\
      device.new_PackedRaySegmentsSpec examples.flat_full = Ok v /\
      device.n_edges v = device0.n_edges v0) /\
  (exists v0,
      device0.new_PackedRaySegmentsSpec inputs.scalar_edges = Ok v0 /\
      device0.n_edges v0 = 1 /\
      device.new_PackedRaySegmentsSpec inputs.scalar_edges
      = Throw DimOutOfRange).
Proof.
  split.
  - eexists.
    destruct (X12_segments_revisions examples.flat_full _ eq_refl)
      as [H _].
    destruct (H eq_refl) as (v & Hv & _ & _ & _ & _ & _ & _ & Hn & _).
    exists v; split; [reflexivity|]. split; [exact Hv | exact Hn].
  - eexists.
    destruct (X12_segments_revisions inputs.scalar_edges _ eq_refl)
      as [_ H].
    destruct (H eq_refl) as [Hthrow Hn].
    split; [reflexivity|]. split; [exact Hn | exact Hthrow].
Defined.

(** X13.  An empty collection is a valid input of the current
    constructor: with the edges and [chunk_cnts] tensors both absent
    (whatever the four optional tensors are) it returns the view with
    null [edges] and [chunk_cnts] pointers, [is_batched = false] and all
    three counts 0. *)
Theorem X13_empty_collection :
  forall s : spec.RaySegmentsSpec,
    spec.edges s = None -> spec.chunk_cnts s = None ->
    exists v,
      device.new_PackedRaySegmentsSpec s = Ok v /\
      device.edges v = nullptr /\
      device.chunk_cnts v = nullptr /\
      device.is_batched v = false /\
      device.n_edges v = 0 /\
      device.n_rays v = 0 /\
      device.n_edges_per_ray v = 0.
Proof.
  intros s He Hc.
  rewrite new_PackedRaySegmentsSpec_eq; unfold constructible.
  rewrite He, Hc; cbn [has_rank andb].
  eexists; split; [reflexivity|].
  unfold segments_view;
    cbn [device.edges device.chunk_cnts device.is_batched device.n_edges
         device.n_rays device.n_edges_per_ray].
  rewrite He, Hc. repeat split.
Qed.

Lemma X13_witness :
  exists v,
    device.new_PackedRaySegmentsSpec
      (spec.mk_RaySegmentsSpec None examples.flags4 None None None None)
    = Ok v /\
    device.edges v = nullptr /\
    device.n_edges v = 0 /\
    device.n_rays v = 0.
Proof.
  destruct (X13_empty_collection
              (spec.mk_RaySegmentsSpec None examples.flags4 None None None None)
              eq_refl eq_refl)
    as (v & Hv & He & _ & _ & Hn & Hr & _).
  exists v; repeat split; assumption.
Defined.

(** X14.  The counts of a segments view describe the buffers behind its
    pointers: for a well-formed edges tensor, reading element [k]
    through the view's [edges] pointer is defined if and only if
    [0 <= k < n_edges]; and for a one-dimensional [chunk_cnts] tensor of
    at most [INT32_MAX] entries, reading element [r] through the view's
    [chunk_cnts] pointer is defined if and only if [0 <= r < n_rays]. *)
Theorem X14_segments_counts_bound_buffers :
  forall (s : spec.RaySegmentsSpec) (v : device.PackedRaySegmentsSpec),
    device.new_PackedRaySegmentsSpec s = Ok v ->
    (forall e k,
        spec.edges s = Some e -> torch.wf_impl e ->
        ((exists a, index (device.edges v) k = Some a) <->
         0 <= k < device.n_edges v)) /\
    (forall c m r,
        spec.chunk_cnts s = Some c -> torch.wf_impl c ->
        torch.sizes c = [m] -> m <= INT32_MAX ->
        ((exists a, index (device.chunk_cnts v) r = Some a) <->
         0 <= r < device.n_rays v)).
Proof.
  intros s v Hv.
  rewrite new_PackedRaySegmentsSpec_eq in Hv.
  destruct (constructible s); [|discriminate].
  injection Hv as <-. split.
  - intros e k He (_ & _ & Hlen).
    unfold segments_view; cbn [device.edges device.n_edges].
    rewrite He; cbn [opt_ptr].
    now rewrite index_defined_iff, Hlen.
  - intros c m r Hc (Hall & _ & Hlen) Hs Hm.
    unfold segments_view; cbn [device.chunk_cnts device.n_rays].
    rewrite Hc; cbn [opt_ptr]. rewrite Hs in *; cbn [hd].
    assert (H0 : 0 <= m) by (inversion Hall; lia).
    rewrite to_int32_nonneg by lia.
    unfold torch.prod_sizes in Hlen; cbn [fold_right] in Hlen.
    rewrite index_defined_iff, Hlen. lia.
Qed.

Lemma X14_witness :
  exists v,
    device.new_PackedRaySegmentsSpec examples.flat_full = Ok v /\
    (exists a, index (device.edges v) 3 = Some a) /\
    index (device.edges v) 4 = None /\
    (exists a, index (device.chunk_cnts v) 1 = Some a) /\
    index (device.chunk_cnts v) 2 = None.
Proof.
  eexists; split; [reflexivity|].
  match goal with
  | |- context [device.edges ?v] =>
      destruct (X14_segments_counts_bound_buffers examples.flat_full v eq_refl)
        as [He Hc]
  end.
  split.
  - refine (proj2 (He _ 3 eq_refl _) _).
    + apply tensor_of_wf;
        [repeat (apply Forall_cons; [unfold INT64_MAX; lia|]);
         apply Forall_nil
        | cbn; unfold INT64_MAX; lia].
    + split; [vm_compute; discriminate | reflexivity].
  - split; [reflexivity|]. split; [|reflexivity].
    refine (proj2 (Hc _ 2 1 eq_refl _ eq_refl _) _).
    + apply tensor_of_wf;
        [repeat (apply Forall_cons; [unfold INT64_MAX; lia|]);
         apply Forall_nil
        | cbn; unfold INT64_MAX; lia].
    + unfold INT32_MAX; lia.
    + split; [vm_compute; discriminate | reflexivity].
Defined.

(** [optional_fields_absent_ok0] at a collection of edges and counts
    only. *)
Lemma X15_witness :
  exists v,
    device0.new_PackedRaySegmentsSpec examples.flat_light = Ok v /\
    device0.is_left v = nullptr /\
    device0.is_right v = nullptr /\
    device0.chunk_starts v = nullptr /\
    device0.ray_ids v = nullptr.
Proof.
  exact (@optional_fields_absent_ok0
           examples.flat_edges
           (torch.mk_tensor [2] (mk_span (torch.prod_sizes [2]) (fun _ => 2)))
           ltac:(discriminate) None None None None).
Defined.

(** ** Rays view: construction outcomes *)

(** X16.  Outcomes of the rays constructor.  It throws for an undefined
    tensor exactly when [origins] or [dirs] is absent, and for a missing
    dimension exactly when both are defined and [origins] has no
    dimension.  Otherwise it succeeds with the two data pointers and
    [N] the first extent of [origins] narrowed to 32 bits: the other
    extents of [origins] and the whole shape of [dirs] are never looked
    at. *)
Theorem X16_rays_constructor_outcomes :
  forall s : spec.RaysSpec,
    match device.new_PackedRaysSpec s with
    | Ok v =>
        exists o d N ns,
          spec.origins s = Some o /\ spec.dirs s = Some d /\
          torch.sizes o = N :: ns /\
          device.origins v = Some (torch.storage o) /\
          device.dirs v = Some (torch.storage d) /\
          device.N v = to_int32 N
    | Throw UndefinedTensor =>
        spec.origins s = None \/ spec.dirs s = None
    | Throw DimOutOfRange =>
        exists o d,
          spec.origins s = Some o /\ spec.dirs s = Some d /\
          torch.sizes o = []
    end.
Proof.
  intros [[o|] [d|]]; unfold device.new_PackedRaysSpec;
    cbn [spec.origins spec.dirs torch.data_ptr bind];
    try (left; reflexivity); try (right; reflexivity).
  rewrite size_first.
  destruct (torch.sizes o) as [|N ns] eqn:E; cbn [bind].
  - exists o, d; repeat split. exact E.
  - exists o, d, N, ns.
    split; [reflexivity|]. split; [reflexivity|]. split; [exact E|].
    repeat split.
Qed.

(** X17.  The two revisions of the rays constructor: on every input
    the current one throws the error the earlier one throws, or returns
    the earlier view with its 64-bit [N] narrowed to 32 bits. *)
Theorem X17_rays_revisions :
  forall s : spec.RaysSpec,
    device.new_PackedRaysSpec s
    = (v0 <- device0.new_PackedRaysSpec s ;; Ok (narrow_rays v0)).
Proof.
  intros s.
  unfold device.new_PackedRaysSpec, device0.new_PackedRaysSpec.
  destruct (torch.data_ptr (spec.origins s)); [|reflexivity].
  destruct (torch.data_ptr (spec.dirs s)); [|reflexivity].
  cbn [bind].
  destruct (torch.size (spec.origins s) 0); reflexivity.
Qed.
